(** * The collaborative whiteboard component, embedded and verified

    The repository holds one React component in two revisions:

    - [src/components/Whiteboard.tsx], the component that [src/app/page.tsx]
      imports (module [Whiteboard] below);
    - the revised component that follows the page in [src/app/page.tsx],
      which adds the clear broadcast and a channel reference (module
      [WhiteboardSync] below).

    Both are event handlers over a handful of hooks: two refs, three state
    cells and one realtime channel.  The embedding passes that state
    explicitly; the calls a handler makes on the backend client and on the
    console are returned next to the state as a list of effects.

    Coordinates are JS numbers; they are embedded as [Z] (pixel values), the
    only arithmetic on them being the subtraction of the bounding box.  No
    theorem below uses a law of that subtraction: where a coordinate matters
    it is a hypothesis on what [getCoordinates] returns. *)

From Stdlib Require Import ZArith Lia.
From stdpp Require Import base option list strings gmap.

#[local] Open Scope string_scope.
#[local] Open Scope list_scope.

(** ** Data model *)

(** [type Point = { x: number; y: number }] *)
Record Point := mkPoint { x : Z; y : Z }.

(** The values a row of the [drawings] table or a notification body holds.
    A body is a loosely typed JS object: a key that is absent reads as
    [undefined]. *)
Inductive JsValue :=
| JUndefined
| JNum (n : Z)
| JStr (s : string)
| JPath (pts : list Point).

Definition prop (obj : gmap string JsValue) (key : string) : JsValue :=
  default JUndefined (obj !! key).

(** ** The 2D drawing context

    The browser's canvas is not part of the repository; the part of it the
    handlers call is embedded as follows.  A context carries its pen
    settings, the current path as a list of subpaths, and what has been
    painted on the bitmap, in paint order.  Every call is also logged. *)

Inductive LineCap := CapButt | CapRound | CapSquare.
Inductive LineJoin := JoinMiter | JoinRound | JoinBevel.

Inductive CanvasCall :=
| SetStrokeStyle (v : JsValue)
| SetLineWidth (v : JsValue)
| SetLineCap (c : LineCap)
| SetLineJoin (j : LineJoin)
| BeginPath
| MoveTo (px py : Z)
| LineTo (px py : Z)
| Stroke
| ClearRect (rx ry rw rh : Z).

Record Pen := mkPen {
  pen_style : string;
  pen_width : Z;
  pen_cap : LineCap;
  pen_join : LineJoin }.

Inductive Mark :=
| Stroked (pen : Pen) (path : list (list Point))
| Erased (rx ry rw rh : Z).

Record Context2D := mkContext2D {
  ctx_pen : Pen;
  ctx_path : list (list Point);
  ctx_marks : list Mark;
  ctx_calls : list CanvasCall }.

Definition default_pen : Pen := mkPen "#000000" 1 CapButt JoinMiter.

Definition fresh_context : Context2D := mkContext2D default_pen [] [] [].

Definition logged (call : CanvasCall) (c : Context2D) : Context2D :=
  mkContext2D (ctx_pen c) (ctx_path c) (ctx_marks c) (ctx_calls c ++ [call]).

Definition with_pen (p : Pen) (c : Context2D) : Context2D :=
  mkContext2D p (ctx_path c) (ctx_marks c) (ctx_calls c).

Definition with_path (sp : list (list Point)) (c : Context2D) : Context2D :=
  mkContext2D (ctx_pen c) sp (ctx_marks c) (ctx_calls c).

Definition with_marks (ms : list Mark) (c : Context2D) : Context2D :=
  mkContext2D (ctx_pen c) (ctx_path c) ms (ctx_calls c).

(** [ctx.strokeStyle = v]: a string is taken as a colour (every string is
    assumed to parse as one); any other value leaves the style as it was. *)
Definition set_strokeStyle (v : JsValue) (c : Context2D) : Context2D :=
  let c := logged (SetStrokeStyle v) c in
  match v with
  | JStr s =>
      with_pen (mkPen s (pen_width (ctx_pen c)) (pen_cap (ctx_pen c))
                      (pen_join (ctx_pen c))) c
  | _ => c
  end.

(** [ctx.lineWidth = v]: zero, negative and non-numeric values (among them
    [undefined], which converts to NaN) are ignored by the canvas. *)
Definition set_lineWidth (v : JsValue) (c : Context2D) : Context2D :=
  let c := logged (SetLineWidth v) c in
  match v with
  | JNum n =>
      if (0 <? n)%Z
      then with_pen (mkPen (pen_style (ctx_pen c)) n (pen_cap (ctx_pen c))
                           (pen_join (ctx_pen c))) c
      else c
  | _ => c
  end.

Definition set_lineCap (k : LineCap) (c : Context2D) : Context2D :=
  let c := logged (SetLineCap k) c in
  with_pen (mkPen (pen_style (ctx_pen c)) (pen_width (ctx_pen c)) k
                  (pen_join (ctx_pen c))) c.

Definition set_lineJoin (j : LineJoin) (c : Context2D) : Context2D :=
  let c := logged (SetLineJoin j) c in
  with_pen (mkPen (pen_style (ctx_pen c)) (pen_width (ctx_pen c))
                  (pen_cap (ctx_pen c)) j) c.

Definition beginPath (c : Context2D) : Context2D :=
  with_path [] (logged BeginPath c).

Definition moveTo (px py : Z) (c : Context2D) : Context2D :=
  let c := logged (MoveTo px py) c in
  with_path (ctx_path c ++ [[mkPoint px py]]) c.

(** Appends to the last subpath; with no subpath yet it starts one. *)
Fixpoint extend_last (p : Point) (sp : list (list Point)) : list (list Point) :=
  match sp with
  | [] => [[p]]
  | [s] => [s ++ [p]]
  | s :: rest => s :: extend_last p rest
  end.

Definition lineTo (px py : Z) (c : Context2D) : Context2D :=
  let c := logged (LineTo px py) c in
  with_path (extend_last (mkPoint px py) (ctx_path c)) c.

(** [ctx.stroke()] paints the whole current path with the current pen. *)
Definition stroke (c : Context2D) : Context2D :=
  let c := logged Stroke c in
  with_marks (ctx_marks c ++ [Stroked (ctx_pen c) (ctx_path c)]) c.

Definition clearRect (rx ry rw rh : Z) (c : Context2D) : Context2D :=
  let c := logged (ClearRect rx ry rw rh) c in
  with_marks (ctx_marks c ++ [Erased rx ry rw rh]) c.

(** What is left to see on a [w] by [h] bitmap: the strokes painted since
    the last erasure that covered the whole bitmap (a partial erasure is
    kept as leaving every stroke in view). *)
Definition covers (w h rx ry rw rh : Z) : bool :=
  (rx <=? 0)%Z && (ry <=? 0)%Z && (w <=? rx + rw)%Z && (h <=? ry + rh)%Z.

Definition see (w h : Z) (acc : list (Pen * list (list Point))) (m : Mark)
  : list (Pen * list (list Point)) :=
  match m with
  | Stroked pen path => acc ++ [(pen, path)]
  | Erased rx ry rw rh => if covers w h rx ry rw rh then [] else acc
  end.

Definition visible (w h : Z) (ms : list Mark) : list (Pen * list (list Point)) :=
  fold_left (see w h) ms [].

(** The canvas element: its bounding box in the viewport, its bitmap size
    and the context [getContext('2d')] hands out ([None] for [null]). *)
Record Canvas := mkCanvas {
  rect_left : Z;
  rect_top : Z;
  width : Z;
  height : Z;
  context2d : option Context2D }.

Definition with_context (c : Context2D) (cv : Canvas) : Canvas :=
  mkCanvas (rect_left cv) (rect_top cv) (width cv) (height cv) (Some c).

(** ** Hooks, events and effects *)

(** What the component registers on its realtime channel. *)
Inductive Binding :=
| PostgresChanges (event schema table : string)
| Broadcast (event : string).

#[global] Instance Binding_eq_dec : EqDecision Binding.
Proof. solve_decision. Defined.

Record Channel := mkChannel {
  topic : string;
  bindings : list Binding;
  joined : bool }.

(** The hooks of one mounted component: [canvasRef.current],
    [currentPathRef.current], [channelRef.current] (only the revised
    component has that ref), the three [useState] cells, and the channel the
    mount effect registered with the backend client. *)
Record State := mkState {
  canvas : option Canvas;
  currentPath : list Point;
  channelRef : option Channel;
  isDrawing : bool;
  color : string;
  lineWidth : Z;
  realtime : option Channel }.

Definition set_canvas (cv : option Canvas) (st : State) : State :=
  mkState cv (currentPath st) (channelRef st) (isDrawing st) (color st)
          (lineWidth st) (realtime st).

Definition set_currentPath (p : list Point) (st : State) : State :=
  mkState (canvas st) p (channelRef st) (isDrawing st) (color st)
          (lineWidth st) (realtime st).

Definition set_channelRef (ch : option Channel) (st : State) : State :=
  mkState (canvas st) (currentPath st) ch (isDrawing st) (color st)
          (lineWidth st) (realtime st).

Definition setIsDrawing (b : bool) (st : State) : State :=
  mkState (canvas st) (currentPath st) (channelRef st) b (color st)
          (lineWidth st) (realtime st).

Definition setColor (c : string) (st : State) : State :=
  mkState (canvas st) (currentPath st) (channelRef st) (isDrawing st) c
          (lineWidth st) (realtime st).

Definition setLineWidth (w : Z) (st : State) : State :=
  mkState (canvas st) (currentPath st) (channelRef st) (isDrawing st)
          (color st) w (realtime st).

Definition set_realtime (ch : option Channel) (st : State) : State :=
  mkState (canvas st) (currentPath st) (channelRef st) (isDrawing st)
          (color st) (lineWidth st) ch.

(** [canvasRef.current?.getContext('2d')] *)
Definition get_context (st : State) : option Context2D :=
  canvas st ≫= context2d.

(** The context is a mutable object of the canvas: a handler that called it
    leaves the canvas holding the context as the calls left it. *)
Definition put_context (c : Context2D) (st : State) : State :=
  set_canvas (with_context c <$> canvas st) st.

(** The hooks' initial values. *)
Definition initial : State :=
  mkState None [] None false "#000000" 5 None.

(** The two states of the capture machine. *)
Inductive Phase := Idle | Capturing.

Definition phase (st : State) : Phase :=
  if isDrawing st then Capturing else Idle.

(** The native events [getCoordinates] accepts:
    [MouseEvent | TouchEvent]. *)
Record Touch := mkTouch { touch_clientX : Z; touch_clientY : Z }.

Inductive NativeEvent :=
| MouseEvent (clientX clientY : Z)
| TouchEvent (touches : list Touch).

(** The error object of a failed backend call. *)
Record PostgrestError := mkError { message : string; code : string }.

(** The calls a handler makes outside the component. *)
Inductive Effect :=
| Insert (table : string) (row : gmap string JsValue)
| ConsoleError (label : string) (err : PostgrestError)
| Send (chan : string) (type event : string).

(** An [async] handler either runs to its end, or stops at its [await] on a
    backend call with the rest of its body as a continuation; the
    continuation runs on the state it finds when the call resolves. *)
Inductive Async :=
| Done (st : State)
| Await (st : State) (table : string) (row : gmap string JsValue)
        (k : option PostgrestError → State → State * list Effect).

(** Resolves an awaited call at once with the backend's answer. *)
Definition settle (backend : gmap string JsValue → option PostgrestError)
    (a : Async) : State * list Effect :=
  match a with
  | Done st => (st, [])
  | Await st table row k =>
      let '(st', out) := k (backend row) st in
      (st', Insert table row :: out)
  end.

(** What the backend pushes to a subscribed client. *)
Inductive ServerEvent :=
| PostgresInsert (schema table : string) (new : gmap string JsValue)
| BroadcastMsg (event : string).

Definition is_insert (e : Effect) : bool :=
  match e with Insert _ _ => true | _ => false end.

(** ** Rendering a received stroke

    [drawPath] is the same in both revisions but for the key it reads the
    width from: [draw.lineWidth] in [src/components/Whiteboard.tsx],
    [draw.linewidth] in the revised component. *)
Section DrawPath.

Variable width_key : string.

(** [for (let i = 1; i < draw.path.length; i++) ctx.lineTo(...)], with
    [fuel] bounding the iterations left. *)
Fixpoint lineTo_loop (path : list Point) (i fuel : nat) (c : Context2D)
  : Context2D :=
  match fuel with
  | O => c
  | S fuel' =>
      match path !! i with
      | Some p => lineTo_loop path (S i) fuel' (lineTo (x p) (y p) c)
      | None => c
      end
  end.

(** A [path] that is absent is falsy and ends the function; the [path]
    column otherwise holds an array of points (other values of the key are
    outside the embedding and left without effect). *)
Definition drawPath_with (draw : gmap string JsValue) (st : State) : State :=
  match get_context st, prop draw "path" with
  | Some ctx, JPath path =>
      if (length path <? 2)%nat then st
      else
        let ctx := set_strokeStyle (prop draw "color") ctx in
        let ctx := set_lineWidth (prop draw width_key) ctx in
        let ctx := set_lineCap CapRound ctx in
        let ctx := set_lineJoin JoinRound ctx in
        let ctx := beginPath ctx in
        let ctx := match path !! 0%nat with
                   | Some p0 => moveTo (x p0) (y p0) ctx
                   | None => ctx
                   end in
        let ctx := lineTo_loop path 1 (length path - 1) ctx in
        put_context (stroke ctx) st
  | _, _ => st
  end.

End DrawPath.

(** The body [handleMouseUp] passes to [insert]. *)
Definition stroke_row (path : list Point) (c : string) (w : Z)
  : gmap string JsValue :=
  <["path" := JPath path]> (<["color" := JStr c]> {["linewidth" := JNum w]}).

(** ** [src/components/Whiteboard.tsx] *)
Module Whiteboard.

Definition drawPath : gmap string JsValue → State → State :=
  drawPath_with "lineWidth".

Definition getCoordinates (event : NativeEvent) (st : State) : option Point :=
  match canvas st with
  | None => None
  | Some cv =>
      match event with
      | MouseEvent clientX clientY =>
          Some (mkPoint (clientX - rect_left cv) (clientY - rect_top cv))
      | TouchEvent touches =>
          match touches !! 0%nat with
          | Some t =>
              Some (mkPoint (touch_clientX t - rect_left cv)
                            (touch_clientY t - rect_top cv))
          | None => None
          end
      end
  end.

Definition handleMouseDown (e : NativeEvent) (st : State) : State :=
  let st := setIsDrawing true st in
  match getCoordinates e st with
  | None => st
  | Some coords =>
      let st := set_currentPath [coords] st in
      match get_context st with
      | None => st
      | Some ctx =>
          put_context (moveTo (x coords) (y coords) (beginPath ctx)) st
      end
  end.

Definition handleMouseMove (e : NativeEvent) (st : State) : State :=
  if negb (isDrawing st) then st
  else
    match getCoordinates e st with
    | None => st
    | Some coords =>
        let st := set_currentPath (currentPath st ++ [coords]) st in
        match get_context st with
        | None => st
        | Some ctx =>
            let ctx := set_strokeStyle (JStr (color st)) ctx in
            let ctx := set_lineWidth (JNum (lineWidth st)) ctx in
            let ctx := set_lineCap CapRound ctx in
            let ctx := set_lineJoin JoinRound ctx in
            let ctx := lineTo (x coords) (y coords) ctx in
            put_context (stroke ctx) st
        end
    end.

(** The part of [handleMouseUp] after its [await]. *)
Definition handleMouseUp_resume (error : option PostgrestError) (st : State)
  : State * list Effect :=
  (set_currentPath [] st,
   match error with
   | Some err => [ConsoleError "Error saving drawing:" err]
   | None => []
   end).

Definition handleMouseUp (st : State) : Async :=
  let st1 := setIsDrawing false st in
  if (1 <? length (currentPath st))%nat
  then Await st1 "drawings"
             (stroke_row (currentPath st) (color st) (lineWidth st))
             handleMouseUp_resume
  else Done (set_currentPath [] st1).

Definition clearCanvas (st : State) : State * list Effect :=
  match canvas st with
  | Some cv =>
      match context2d cv with
      | Some ctx =>
          (put_context (clearRect 0 0 (width cv) (height cv) ctx) st, [])
      | None => (st, [])
      end
  | None => (st, [])
  end.

(** The channel of the mount effect. *)
Definition channel : Channel :=
  mkChannel "whiteboard-drawings"
            [PostgresChanges "INSERT" "public" "drawings"] true.

(** The mount effect, after React has attached the canvas element (laid
    out at [left], [top]) to [canvasRef]; and its cleanup. *)
Definition mount (left top : Z) (st : State) : State :=
  set_realtime (Some channel)
    (set_canvas (Some (mkCanvas left top 800 600 (Some fresh_context))) st).

Definition unmount (st : State) : State :=
  set_realtime None (set_canvas None st).

Definition listens (b : Binding) (st : State) : bool :=
  match realtime st with
  | Some ch => joined ch && bool_decide (b ∈ bindings ch)
  | None => false
  end.

(** The handlers registered on the channel. *)
Definition receive (ev : ServerEvent) (st : State) : State :=
  match ev with
  | PostgresInsert schema table new =>
      if listens (PostgresChanges "INSERT" schema table) st
      then drawPath new st
      else st
  | BroadcastMsg _ => st
  end.

(** The props of the [<canvas>] element the component renders. *)
Record CanvasProps := mkProps {
  attr_width : Z;
  attr_height : Z;
  onMouseDown : NativeEvent → State → Async;
  onMouseMove : NativeEvent → State → Async;
  onMouseUp : NativeEvent → State → Async;
  onMouseLeave : NativeEvent → State → Async }.

Definition render : CanvasProps :=
  mkProps 800 600
          (λ e st, Done (handleMouseDown e st))
          (λ e st, Done (handleMouseMove e st))
          (λ _, handleMouseUp)
          (λ _, handleMouseUp).

Inductive UIEvent :=
| MouseDown (e : NativeEvent)
| MouseMove (e : NativeEvent)
| MouseUp (e : NativeEvent)
| MouseLeave (e : NativeEvent).

Definition dispatch (ev : UIEvent) : State → Async :=
  match ev with
  | MouseDown e => onMouseDown render e
  | MouseMove e => onMouseMove render e
  | MouseUp e => onMouseUp render e
  | MouseLeave e => onMouseLeave render e
  end.

(** A sequence of pointer events, each handler (and the backend call it
    awaits) finishing before the next event arrives. *)
Fixpoint run (backend : gmap string JsValue → option PostgrestError)
    (evs : list UIEvent) (st : State) : State * list Effect :=
  match evs with
  | [] => (st, [])
  | ev :: rest =>
      let '(st1, out1) := settle backend (dispatch ev st) in
      let '(st2, out2) := run backend rest st1 in
      (st2, out1 ++ out2)
  end.

End Whiteboard.

(** ** The revised component (second part of [src/app/page.tsx])

    Its pointer handlers and [handleMouseUp] are those of
    [src/components/Whiteboard.tsx] word for word; what differs is embedded
    here. *)
Module WhiteboardSync.

Definition clearCanvasLocal (st : State) : State :=
  match canvas st with
  | Some cv =>
      match context2d cv with
      | Some ctx => put_context (clearRect 0 0 (width cv) (height cv) ctx) st
      | None => st
      end
  | None => st
  end.

Definition drawPath : gmap string JsValue → State → State :=
  drawPath_with "linewidth".

Definition getCoordinates (event : NativeEvent) (st : State) : option Point :=
  match canvas st with
  | None => None
  | Some cv =>
      match event with
      | MouseEvent clientX clientY =>
          Some (mkPoint (clientX - rect_left cv) (clientY - rect_top cv))
      | TouchEvent touches =>
          if (0 <? length touches)%nat
          then match touches !! 0%nat with
               | Some t =>
                   Some (mkPoint (touch_clientX t - rect_left cv)
                                 (touch_clientY t - rect_top cv))
               | None => None
               end
          else None
      end
  end.

Definition channel : Channel :=
  mkChannel "whiteboard-drawings"
            [PostgresChanges "INSERT" "public" "drawings"; Broadcast "clear"]
            true.

Definition mount (left top : Z) (st : State) : State :=
  set_channelRef (Some channel)
    (set_realtime (Some channel)
       (set_canvas (Some (mkCanvas left top 800 600 (Some fresh_context))) st)).

Definition unmount (st : State) : State :=
  set_channelRef None (set_realtime None (set_canvas None st)).

Definition listens (b : Binding) (st : State) : bool :=
  match realtime st with
  | Some ch => joined ch && bool_decide (b ∈ bindings ch)
  | None => false
  end.

Definition receive (ev : ServerEvent) (st : State) : State :=
  match ev with
  | PostgresInsert schema table new =>
      if listens (PostgresChanges "INSERT" schema table) st
      then drawPath new st
      else st
  | BroadcastMsg event =>
      if listens (Broadcast event) st then clearCanvasLocal st else st
  end.

Definition clearCanvas (st : State) : State * list Effect :=
  let st := clearCanvasLocal st in
  (st,
   match channelRef st with
   | Some ch => [Send (topic ch) "broadcast" "clear"]
   | None => []
   end).

End WhiteboardSync.

(** ** The hosted backend *)

(** The clients connected to the backend and the rows of its [drawings]
    table. *)
Record System := mkSystem {
  clients : list State;
  drawings : list (gmap string JsValue) }.

Section Backend.

(** The component the clients run: how it handles what the backend pushes. *)
Variable receive : ServerEvent → State → State.

Definition on_topic (chan : string) (st : State) : bool :=
  match realtime st with
  | Some ch => bool_decide (topic ch = chan)
  | None => false
  end.

(** Modelled from the spec: the backend service behind
    [../lib/supabaseClient], which is not under [src/].  A broadcast sent on
    a channel is pushed to every other client on that channel and is not
    stored; a row inserted into the table is stored and notified to every
    client, the sender included; rows are never deleted. *)
Definition relay (from : nat) (sys : System) (e : Effect) : System :=
  match e with
  | Send chan type event =>
      if bool_decide (type = "broadcast")
      then mkSystem
             (imap (λ j st,
                    if bool_decide (j = from) then st
                    else if on_topic chan st
                         then receive (BroadcastMsg event) st
                         else st)
                   (clients sys))
             (drawings sys)
      else sys
  | Insert table row =>
      mkSystem
        (receive (PostgresInsert "public" table row) <$> clients sys)
        (drawings sys ++ [row])
  | ConsoleError _ _ => sys
  end.

(** Client [i] runs a handler; the backend relays what it emitted. *)
Definition act (handler : State → State * list Effect) (i : nat)
    (sys : System) : System :=
  match clients sys !! i with
  | Some st =>
      let '(st', out) := handler st in
      fold_left (relay i) out (mkSystem (<[i := st']> (clients sys)) (drawings sys))
  | None => sys
  end.

End Backend.

(** The strokes in view on the client's surface. *)
Definition in_view (st : State) : list (Pen * list (list Point)) :=
  match canvas st with
  | Some cv =>
      match context2d cv with
      | Some c => visible (width cv) (height cv) (ctx_marks c)
      | None => []
      end
  | None => []
  end.

(** Nothing is in view on the client's surface. *)
Definition blank_state (st : State) : Prop := in_view st = [].

(** The pen [drawPath] strokes with, from the pen it finds and the body it
    is given. *)
Definition pen_for (width_key : string) (draw : gmap string JsValue) (pen : Pen)
  : Pen :=
  mkPen (match prop draw "color" with JStr s => s | _ => pen_style pen end)
        (match prop draw width_key with
         | JNum n => if (0 <? n)%Z then n else pen_width pen
         | _ => pen_width pen
         end)
        CapRound JoinRound.

(** The calls [drawPath] makes for a path of two points or more. *)
Definition draw_calls (width_key : string) (draw : gmap string JsValue)
    (path : list Point) : list CanvasCall :=
  [SetStrokeStyle (prop draw "color"); SetLineWidth (prop draw width_key);
   SetLineCap CapRound; SetLineJoin JoinRound; BeginPath]
  ++ match path with
     | p0 :: rest =>
         MoveTo (x p0) (y p0) :: ((λ p, LineTo (x p) (y p)) <$> rest)
     | [] => []
     end
  ++ [Stroke].

(** The [lineTo] calls of the loop, as one pass over the points. *)
Definition lineTo_all (ps : list Point) (c : Context2D) : Context2D :=
  fold_left (λ c p, lineTo (x p) (y p) c) ps c.

(** A client of [src/components/Whiteboard.tsx], mounted, on whose surface
    the stroke of a received notification is in view. *)
Definition painted_client : State :=
  Whiteboard.receive
    (PostgresInsert "public" "drawings"
       (stroke_row [mkPoint 0 0; mkPoint 3 4] "#000000" 5))
    (Whiteboard.mount 0 0 initial).

(** The same for the revised component. *)
Definition painted_sync_client : State :=
  WhiteboardSync.receive
    (PostgresInsert "public" "drawings"
       (stroke_row [mkPoint 0 0; mkPoint 3 4] "#000000" 5))
    (WhiteboardSync.mount 0 0 initial).

(** What the handlers read of the canvas element itself: its bounding box
    and its bitmap size. *)
Definition box (st : State) : option (Z * Z * Z * Z) :=
  (λ cv, (rect_left cv, rect_top cv, width cv, height cv)) <$> canvas st.

(** The pen a local move strokes with. *)
Definition local_pen (st : State) : Pen :=
  mkPen (color st) (lineWidth st) CapRound JoinRound.

(** A capture: pointer-down on [e0], then a move on each of [es] in order. *)
Definition capture (e0 : NativeEvent) (es : list NativeEvent) (st : State)
  : State :=
  fold_left (λ s e, Whiteboard.handleMouseMove e s) es
            (Whiteboard.handleMouseDown e0 st).

(** The pointer events of one whole stroke: down, moves, release. *)
Definition stroke_events (e0 : NativeEvent) (es : list NativeEvent)
    (e : NativeEvent) : list Whiteboard.UIEvent :=
  Whiteboard.MouseDown e0
  :: (Whiteboard.MouseMove <$> es) ++ [Whiteboard.MouseUp e].

(** The prefixes of two points or more of a path, shortest first: what a
    capture strokes, move after move. *)
Definition strokes_of (path : list Point) : list (list Point) :=
  (λ k, take k path) <$> seq 2 (length path - 1).

(** A submitted stroke: path, colour, width. *)
Record Submitted := mkSubmitted {
  sub_path : list Point;
  sub_color : string;
  sub_width : Z }.

Definition row_of (r : Submitted) : gmap string JsValue :=
  stroke_row (sub_path r) (sub_color r) (sub_width r).

Definition mark_of (r : Submitted) : Mark :=
  Stroked (mkPen (sub_color r) (sub_width r) CapRound JoinRound) [sub_path r].

Definition well_formed (r : Submitted) : Prop :=
  (2 ≤ length (sub_path r))%nat ∧ (0 < sub_width r)%Z.

(** An effect list holds a clear broadcast. *)
Definition emits_clear (out : list Effect) : Prop :=
  ∃ chan, Send chan "broadcast" "clear" ∈ out.

Arguments stroke_row : simpl never.

(** ** Properties of the drawing context *)

Lemma point_eta (p : Point) : mkPoint (x p) (y p) = p.
Proof. by destruct p. Qed.

Lemma covers_whole (w h : Z) : covers w h 0 0 w h = true.
Proof.
  unfold covers. rewrite !andb_true_iff, !Z.leb_le. lia.
Qed.

Lemma visible_snoc (w h : Z) (ms : list Mark) (m : Mark) :
  visible w h (ms ++ [m]) = see w h (visible w h ms) m.
Proof. unfold visible. by rewrite fold_left_app. Qed.

Lemma visible_cleared (w h : Z) (ms : list Mark) :
  visible w h (ms ++ [Erased 0 0 w h]) = [].
Proof. rewrite visible_snoc. simpl. by rewrite covers_whole. Qed.

Lemma lineTo_loop_drop (path : list Point) (fuel i : nat) (c : Context2D) :
  (i + fuel = length path)%nat →
  lineTo_loop path i fuel c = lineTo_all (drop i path) c.
Proof.
  revert i c. induction fuel as [|fuel IH]; intros i c Hlen; simpl.
  - rewrite drop_ge by lia. reflexivity.
  - destruct (path !! i) as [p|] eqn:Hp.
    + rewrite (drop_S _ _ _ Hp). simpl. apply IH. lia.
    + apply lookup_ge_None in Hp. lia.
Qed.

Lemma lineTo_all_spec (ps : list Point) (s : list Point) (c : Context2D) :
  ctx_path c = [s] →
  lineTo_all ps c =
  mkContext2D (ctx_pen c) [s ++ ps] (ctx_marks c)
              (ctx_calls c ++ ((λ p, LineTo (x p) (y p)) <$> ps)).
Proof.
  revert s c. induction ps as [|p ps IH]; intros s [pen sp ms calls] Hs;
    simpl in *; subst sp.
  - by rewrite !app_nil_r.
  - unfold lineTo_all in *. simpl.
    rewrite (IH (s ++ [p])) by (simpl; by rewrite point_eta).
    simpl. by rewrite <- !app_assoc.
Qed.

(** ** Properties of [drawPath], for either key *)
Section DrawPathFacts.

Variable width_key : string.

Lemma drawPath_short (draw : gmap string JsValue) (st : State)
    (path : list Point) :
  prop draw "path" = JPath path → (length path < 2)%nat →
  drawPath_with width_key draw st = st.
Proof.
  intros Hpath Hlen. unfold drawPath_with. rewrite Hpath.
  destruct (get_context st); [|done].
  apply Nat.ltb_lt in Hlen. by rewrite Hlen.
Qed.

Lemma drawPath_no_path (draw : gmap string JsValue) (st : State) :
  prop draw "path" = JUndefined → drawPath_with width_key draw st = st.
Proof.
  intros Hpath. unfold drawPath_with. rewrite Hpath.
  by destruct (get_context st).
Qed.

Lemma drawPath_no_context (draw : gmap string JsValue) (st : State) :
  get_context st = None → drawPath_with width_key draw st = st.
Proof. intros Hc. unfold drawPath_with. by rewrite Hc. Qed.

Lemma set_strokeStyle_eq (v : JsValue) (pen : Pen) (sp : list (list Point))
    (ms : list Mark) (calls : list CanvasCall) :
  set_strokeStyle v (mkContext2D pen sp ms calls) =
  mkContext2D
    (mkPen (match v with JStr s => s | _ => pen_style pen end)
           (pen_width pen) (pen_cap pen) (pen_join pen))
    sp ms (calls ++ [SetStrokeStyle v]).
Proof. destruct v, pen; reflexivity. Qed.

Lemma set_lineWidth_eq (v : JsValue) (pen : Pen) (sp : list (list Point))
    (ms : list Mark) (calls : list CanvasCall) :
  set_lineWidth v (mkContext2D pen sp ms calls) =
  mkContext2D
    (mkPen (pen_style pen)
           (match v with
            | JNum n => if (0 <? n)%Z then n else pen_width pen
            | _ => pen_width pen
            end)
           (pen_cap pen) (pen_join pen))
    sp ms (calls ++ [SetLineWidth v]).
Proof.
  destruct v as [|n| |], pen; try reflexivity.
  unfold set_lineWidth. by destruct (0 <? n)%Z.
Qed.

Lemma set_lineCap_eq (k : LineCap) (pen : Pen) (sp : list (list Point))
    (ms : list Mark) (calls : list CanvasCall) :
  set_lineCap k (mkContext2D pen sp ms calls) =
  mkContext2D (mkPen (pen_style pen) (pen_width pen) k (pen_join pen))
              sp ms (calls ++ [SetLineCap k]).
Proof. reflexivity. Qed.

Lemma set_lineJoin_eq (j : LineJoin) (pen : Pen) (sp : list (list Point))
    (ms : list Mark) (calls : list CanvasCall) :
  set_lineJoin j (mkContext2D pen sp ms calls) =
  mkContext2D (mkPen (pen_style pen) (pen_width pen) (pen_cap pen) j)
              sp ms (calls ++ [SetLineJoin j]).
Proof. reflexivity. Qed.

Lemma beginPath_eq (pen : Pen) (sp : list (list Point))
    (ms : list Mark) (calls : list CanvasCall) :
  beginPath (mkContext2D pen sp ms calls) =
  mkContext2D pen [] ms (calls ++ [BeginPath]).
Proof. reflexivity. Qed.

Lemma setters_spec (draw : gmap string JsValue) (c : Context2D) :
  beginPath
    (set_lineJoin JoinRound
       (set_lineCap CapRound
          (set_lineWidth (prop draw width_key)
             (set_strokeStyle (prop draw "color") c)))) =
  mkContext2D (pen_for width_key draw (ctx_pen c)) [] (ctx_marks c)
    (ctx_calls c ++
     [SetStrokeStyle (prop draw "color"); SetLineWidth (prop draw width_key);
      SetLineCap CapRound; SetLineJoin JoinRound; BeginPath]).
Proof.
  destruct c as [pen sp ms calls].
  rewrite set_strokeStyle_eq, set_lineWidth_eq, set_lineCap_eq,
    set_lineJoin_eq, beginPath_eq.
  unfold pen_for.
  cbn [ctx_pen ctx_marks ctx_calls pen_style pen_width pen_cap pen_join].
  by rewrite <- !app_assoc.
Qed.

Lemma drawPath_renders (draw : gmap string JsValue) (st : State)
    (cv : Canvas) (ctx : Context2D) (path : list Point) :
  canvas st = Some cv → context2d cv = Some ctx →
  prop draw "path" = JPath path → (2 ≤ length path)%nat →
  drawPath_with width_key draw st =
  set_canvas
    (Some (with_context
             (mkContext2D
                (pen_for width_key draw (ctx_pen ctx)) [path]
                (ctx_marks ctx ++
                 [Stroked (pen_for width_key draw (ctx_pen ctx)) [path]])
                (ctx_calls ctx ++ draw_calls width_key draw path))
             cv))
    st.
Proof.
  intros Hcv Hctx Hpath Hlen. unfold drawPath_with, get_context, put_context.
  rewrite Hcv. simpl. rewrite Hctx, Hpath.
  destruct path as [|p0 rest]; [simpl in Hlen; lia|].
  destruct (length (p0 :: rest) <? 2)%nat eqn:Hlt;
    [apply Nat.ltb_lt in Hlt; lia|].
  rewrite lineTo_loop_drop by (simpl; lia).
  rewrite setters_spec. simpl drop. simpl lookup.
  rewrite (lineTo_all_spec rest [p0]) by (simpl; by rewrite point_eta).
  unfold draw_calls, stroke, logged, with_marks.
  cbn [ctx_pen ctx_path ctx_marks ctx_calls].
  simpl. rewrite <- !app_assoc. reflexivity.
Qed.

End DrawPathFacts.

Lemma drawPath_frame (width_key : string) (draw : gmap string JsValue)
    (st : State) :
  drawPath_with width_key draw st =
  set_canvas (canvas (drawPath_with width_key draw st)) st.
Proof.
  unfold drawPath_with, put_context.
  destruct (get_context st), (prop draw "path") as [|n|s|path];
    try (by destruct st).
  destruct (length path <? 2)%nat; by destruct st.
Qed.

Lemma pen_for_idem (width_key : string) (draw : gmap string JsValue)
    (pen : Pen) :
  pen_for width_key draw (pen_for width_key draw pen) =
  pen_for width_key draw pen.
Proof.
  unfold pen_for. cbn [pen_style pen_width].
  destruct (prop draw "color") as [|m|s|pts];
    destruct (prop draw width_key) as [|n|s'|pts'];
    try destruct (0 <? n)%Z eqn:Hn; rewrite ?Hn; reflexivity.
Qed.

Lemma drawPath_iter (width_key : string) (draw : gmap string JsValue)
    (path : list Point) (cv : Canvas) (ctx : Context2D) (n : nat) (st : State) :
  canvas st = Some cv → context2d cv = Some ctx →
  prop draw "path" = JPath path → (2 ≤ length path)%nat →
  ∃ ctx',
    canvas (Nat.iter n (drawPath_with width_key draw) st)
    = Some (with_context ctx' cv)
    ∧ pen_for width_key draw (ctx_pen ctx')
      = pen_for width_key draw (ctx_pen ctx)
    ∧ ctx_marks ctx' =
      ctx_marks ctx ++
      replicate n (Stroked (pen_for width_key draw (ctx_pen ctx)) [path]).
Proof.
  intros Hcv Hctx Hpath Hlen. induction n as [|n (ctx' & Hc & Hpen & Hmarks)].
  - exists ctx. simpl. rewrite app_nil_r. repeat split; [|done..].
    rewrite Hcv. f_equal. destruct cv; simpl in *; by subst.
  - simpl. erewrite drawPath_renders; [|exact Hc|reflexivity|done..].
    eexists. simpl. split; [reflexivity|]. simpl. split.
    + rewrite Hpen. apply pen_for_idem.
    + rewrite Hmarks, Hpen, <- app_assoc. f_equal.
      change [Stroked ?m ?p] with (replicate 1 (Stroked m p)).
      rewrite <- replicate_add, Nat.add_1_r. reflexivity.
Qed.

(** ** The row of a stroke, key by key *)

Lemma prop_stroke_row_path (p : list Point) (c : string) (w : Z) :
  prop (stroke_row p c w) "path" = JPath p.
Proof. unfold prop, stroke_row. by rewrite lookup_insert_eq. Qed.

Lemma prop_stroke_row_color (p : list Point) (c : string) (w : Z) :
  prop (stroke_row p c w) "color" = JStr c.
Proof.
  unfold prop, stroke_row.
  by rewrite lookup_insert_ne, lookup_insert_eq.
Qed.

Lemma prop_stroke_row_linewidth (p : list Point) (c : string) (w : Z) :
  prop (stroke_row p c w) "linewidth" = JNum w.
Proof.
  unfold prop, stroke_row.
  by rewrite !lookup_insert_ne, lookup_singleton_eq.
Qed.

Lemma prop_stroke_row_lineWidth (p : list Point) (c : string) (w : Z) :
  prop (stroke_row p c w) "lineWidth" = JUndefined.
Proof.
  unfold prop, stroke_row.
  by rewrite !lookup_insert_ne, lookup_singleton_ne.
Qed.

(** ** The claims *)

(** C3: a buffered path of fewer than 2 points is never submitted, and a
    received path of fewer than 2 points is never rendered.  For such a
    path [handleMouseUp] runs to its end without awaiting any backend call,
    emits no effect at all (no insert, no log) and leaves the canvas as it
    was; [drawPath] returns the state it was given, canvas call log
    included. *)
Theorem C3_short_path_silent (path : list Point) :
  (length path < 2)%nat →
  (∀ st backend,
     currentPath st = path →
     Whiteboard.handleMouseUp st
     = Done (set_currentPath [] (setIsDrawing false st))
     ∧ snd (settle backend (Whiteboard.handleMouseUp st)) = []
     ∧ canvas (fst (settle backend (Whiteboard.handleMouseUp st))) = canvas st)
  ∧ (∀ draw st,
       prop draw "path" = JPath path → Whiteboard.drawPath draw st = st).
Proof.
  intros Hlen. split.
  - intros st backend Hp. unfold Whiteboard.handleMouseUp. rewrite Hp.
    destruct (1 <? length path)%nat eqn:Hlt;
      [apply Nat.ltb_lt in Hlt; lia|].
    by repeat split.
  - intros draw st Hp. by apply drawPath_short with path.
Qed.

Lemma C3_short_path_silent_witness :
  snd (settle (λ _, None)
         (Whiteboard.handleMouseUp
            (set_currentPath [mkPoint 5 5] (Whiteboard.mount 0 0 initial))))
  = []
  ∧ Whiteboard.drawPath (stroke_row [mkPoint 5 5] "#000000" 5)
      (Whiteboard.mount 0 0 initial)
    = Whiteboard.mount 0 0 initial.
Proof.
  destruct (C3_short_path_silent [mkPoint 5 5]) as [Hup Hdraw];
    [simpl; lia|].
  split.
  - apply Hup. reflexivity.
  - apply Hdraw. vm_compute. reflexivity.
Defined.

(** C6: for a path [P] of 2 points or more, [drawPath] begins a path, moves
    to [P[0]], draws a line to each of [P[1]], ..., [P[n-1]] in that order
    and strokes: the path stroked is the single subpath [P]. *)
Theorem C6_drawPath_polyline (draw : gmap string JsValue) (st : State)
    (cv : Canvas) (ctx : Context2D) (P : list Point) :
  canvas st = Some cv → context2d cv = Some ctx →
  prop draw "path" = JPath P → (2 ≤ length P)%nat →
  ∃ ctx' p0 rest,
    get_context (Whiteboard.drawPath draw st) = Some ctx'
    ∧ P = p0 :: rest
    ∧ ctx_calls ctx' =
      ctx_calls ctx ++
      [SetStrokeStyle (prop draw "color");
       SetLineWidth (prop draw "lineWidth");
       SetLineCap CapRound; SetLineJoin JoinRound]
      ++ BeginPath :: MoveTo (x p0) (y p0)
         :: ((λ p, LineTo (x p) (y p)) <$> rest) ++ [Stroke]
    ∧ ctx_path ctx' = [P]
    ∧ ctx_marks ctx' = ctx_marks ctx ++ [Stroked (ctx_pen ctx') [P]].
Proof.
  intros Hcv Hctx Hpath Hlen.
  destruct P as [|p0 rest]; [simpl in Hlen; lia|].
  unfold Whiteboard.drawPath.
  rewrite (drawPath_renders _ _ _ _ _ _ Hcv Hctx Hpath Hlen).
  eexists _, p0, rest. unfold get_context. simpl.
  repeat split; reflexivity.
Qed.

Lemma C6_drawPath_polyline_witness :
  ∃ ctx' p0 rest,
    get_context
      (Whiteboard.drawPath
         (stroke_row [mkPoint 0 0; mkPoint 3 4; mkPoint 6 0] "#000000" 5)
         (Whiteboard.mount 0 0 initial)) = Some ctx'
    ∧ [mkPoint 0 0; mkPoint 3 4; mkPoint 6 0] = p0 :: rest
    ∧ ctx_calls ctx' =
      ctx_calls fresh_context ++
      [SetStrokeStyle
         (prop (stroke_row [mkPoint 0 0; mkPoint 3 4; mkPoint 6 0] "#000000" 5)
               "color");
       SetLineWidth
         (prop (stroke_row [mkPoint 0 0; mkPoint 3 4; mkPoint 6 0] "#000000" 5)
               "lineWidth");
       SetLineCap CapRound; SetLineJoin JoinRound]
      ++ BeginPath :: MoveTo (x p0) (y p0)
         :: ((λ p, LineTo (x p) (y p)) <$> rest) ++ [Stroke]
    ∧ ctx_path ctx' = [[mkPoint 0 0; mkPoint 3 4; mkPoint 6 0]]
    ∧ ctx_marks ctx' =
      ctx_marks fresh_context ++
      [Stroked (ctx_pen ctx') [[mkPoint 0 0; mkPoint 3 4; mkPoint 6 0]]].
Proof.
  apply (C6_drawPath_polyline _ (Whiteboard.mount 0 0 initial)
           (mkCanvas 0 0 800 600 (Some fresh_context)) fresh_context).
  - reflexivity.
  - reflexivity.
  - vm_compute. reflexivity.
  - simpl. lia.
Defined.

Lemma drawPath_iter_realtime (width_key : string) (draw : gmap string JsValue)
    (n : nat) (st : State) :
  realtime (Nat.iter n (drawPath_with width_key draw) st) = realtime st.
Proof.
  induction n as [|n IH]; [done|]. simpl.
  rewrite drawPath_frame. simpl. exact IH.
Qed.

(** C7: the insert handler keeps no record of what it has rendered.  On a
    subscribed client, [n] deliveries of one notification are [n] calls of
    [drawPath] on its body, and, for a body whose path has 2 points or more
    on a client with a drawing context, they paint [n] strokes of that
    path. *)
Theorem C7_no_deduplication (new : gmap string JsValue) (n : nat) (st : State) :
  Whiteboard.listens (PostgresChanges "INSERT" "public" "drawings") st = true →
  Nat.iter n (Whiteboard.receive (PostgresInsert "public" "drawings" new)) st
  = Nat.iter n (Whiteboard.drawPath new) st
  ∧ ∀ cv ctx path,
      canvas st = Some cv → context2d cv = Some ctx →
      prop new "path" = JPath path → (2 ≤ length path)%nat →
      ∃ ctx',
        get_context
          (Nat.iter n
             (Whiteboard.receive (PostgresInsert "public" "drawings" new)) st)
        = Some ctx'
        ∧ ctx_marks ctx' =
          ctx_marks ctx ++
          replicate n (Stroked (pen_for "lineWidth" new (ctx_pen ctx)) [path]).
Proof.
  intros Hsub.
  assert (Heq : ∀ k,
    Nat.iter k (Whiteboard.receive (PostgresInsert "public" "drawings" new)) st
    = Nat.iter k (Whiteboard.drawPath new) st).
  { induction k as [|k IH]; [done|]. simpl. rewrite IH.
    unfold Whiteboard.listens, Whiteboard.drawPath in *.
    rewrite drawPath_iter_realtime.
    destruct (realtime st) as [ch|]; [|done].
    by rewrite Hsub. }
  split; [apply Heq|].
  intros cv ctx path Hcv Hctx Hpath Hlen. rewrite Heq.
  destruct (drawPath_iter "lineWidth" new path cv ctx n st Hcv Hctx Hpath Hlen)
    as (ctx' & Hc & _ & Hmarks).
  exists ctx'. split; [|exact Hmarks].
  unfold get_context, Whiteboard.drawPath. rewrite Hc. reflexivity.
Qed.

Lemma C7_no_deduplication_witness :
  in_view
    (Nat.iter 2
       (Whiteboard.receive
          (PostgresInsert "public" "drawings"
             (stroke_row [mkPoint 0 0; mkPoint 3 4] "#000000" 5)))
       (Whiteboard.mount 0 0 initial))
  = in_view
      (Nat.iter 2
         (Whiteboard.drawPath
            (stroke_row [mkPoint 0 0; mkPoint 3 4] "#000000" 5))
         (Whiteboard.mount 0 0 initial)).
Proof.
  destruct (C7_no_deduplication
              (stroke_row [mkPoint 0 0; mkPoint 3 4] "#000000" 5) 2
              (Whiteboard.mount 0 0 initial)) as [Heq _];
    [vm_compute; reflexivity|].
  rewrite Heq. reflexivity.
Defined.

(** C8: the [<canvas>] element binds [onMouseLeave] to the function it
    binds [onMouseUp] to, [handleMouseUp]; so a pointer leaving the surface
    is handled as a release: the machine is back in [Idle], and a buffer of
    2 points or more is submitted, once, as a row holding the buffer under
    [path], the colour under [color] and the width under [linewidth]. *)
Theorem C8_leave_is_release :
  Whiteboard.onMouseLeave Whiteboard.render
  = Whiteboard.onMouseUp Whiteboard.render
  ∧ ∀ e st,
      Whiteboard.dispatch (Whiteboard.MouseLeave e) st
      = Whiteboard.handleMouseUp st
      ∧ Whiteboard.dispatch (Whiteboard.MouseUp e) st
        = Whiteboard.handleMouseUp st
      ∧ ∀ backend,
          phase (fst (settle backend
                        (Whiteboard.dispatch (Whiteboard.MouseLeave e) st)))
          = Idle
          ∧ ((2 ≤ length (currentPath st))%nat →
             ∃ row,
               filter is_insert
                 (snd (settle backend
                         (Whiteboard.dispatch (Whiteboard.MouseLeave e) st)))
               = [Insert "drawings" row]
               ∧ prop row "path" = JPath (currentPath st)
               ∧ prop row "color" = JStr (color st)
               ∧ prop row "linewidth" = JNum (lineWidth st)).
Proof.
  split; [reflexivity|]. intros e st. do 2 (split; [reflexivity|]).
  intros backend. simpl. unfold Whiteboard.handleMouseUp.
  destruct (1 <? length (currentPath st))%nat eqn:Hlt.
  - simpl. split; [reflexivity|]. intros _.
    exists (stroke_row (currentPath st) (color st) (lineWidth st)).
    split; [by destruct (backend _)|].
    by rewrite prop_stroke_row_path, prop_stroke_row_color,
      prop_stroke_row_linewidth.
  - simpl. split; [reflexivity|]. intros Hlen.
    apply Nat.ltb_ge in Hlt. lia.
Qed.

Lemma C8_leave_is_release_witness :
  ∃ row,
    filter is_insert
      (snd (settle (λ _, None)
              (Whiteboard.dispatch
                 (Whiteboard.MouseLeave (MouseEvent 900 20))
                 (set_currentPath [mkPoint 1 1; mkPoint 2 2]
                    (setIsDrawing true (Whiteboard.mount 0 0 initial))))))
    = [Insert "drawings" row]
    ∧ prop row "path" = JPath [mkPoint 1 1; mkPoint 2 2]
    ∧ prop row "color" = JStr "#000000"
    ∧ prop row "linewidth" = JNum 5.
Proof.
  destruct C8_leave_is_release as [_ H].
  destruct (H (MouseEvent 900 20)
              (set_currentPath [mkPoint 1 1; mkPoint 2 2]
                 (setIsDrawing true (Whiteboard.mount 0 0 initial))))
    as (_ & _ & Hb).
  destruct (Hb (λ _, None)) as [_ Hins].
  apply Hins. simpl. lia.
Defined.

(** C9: [getCoordinates] returns a point or null on every event; it returns
    null exactly when the canvas reference is null or the event is a touch
    event with no first touch, and on a mouse event with the canvas present
    it returns the client position relative to the bounding box. *)
Theorem C9_getCoordinates_total (event : NativeEvent) (st : State) :
  (Whiteboard.getCoordinates event st = None
   ↔ canvas st = None
     ∨ ∃ touches, event = TouchEvent touches ∧ touches !! 0%nat = None)
  ∧ (∀ cv clientX clientY,
       canvas st = Some cv → event = MouseEvent clientX clientY →
       Whiteboard.getCoordinates event st
       = Some (mkPoint (clientX - rect_left cv) (clientY - rect_top cv))).
Proof.
  unfold Whiteboard.getCoordinates. split.
  - destruct (canvas st) as [cv|]; [|split; [by left|done]].
    destruct event as [cx cy|touches].
    + split; [done|]. intros [Hcv|(ts & Hev & _)]; discriminate.
    + destruct (touches !! 0%nat) as [t|] eqn:Ht.
      * split; [done|]. intros [Hcv|(ts & Hev & Hts)]; [discriminate|].
        injection Hev as <-. congruence.
      * split; [|done]. intros _. right. by exists touches.
  - intros cv cx cy -> ->. reflexivity.
Qed.

Lemma C9_getCoordinates_total_witness :
  Whiteboard.getCoordinates (MouseEvent 110 60) (Whiteboard.mount 100 50 initial)
  = Some (mkPoint 10 10)
  ∧ Whiteboard.getCoordinates (TouchEvent []) (Whiteboard.mount 100 50 initial)
    = None.
Proof.
  split.
  - destruct (C9_getCoordinates_total (MouseEvent 110 60)
                (Whiteboard.mount 100 50 initial)) as [_ Hmouse].
    apply (Hmouse (mkCanvas 100 50 800 600 (Some fresh_context)) 110%Z 60%Z);
      reflexivity.
  - destruct (C9_getCoordinates_total (TouchEvent [])
                (Whiteboard.mount 100 50 initial)) as [[_ Hnull] _].
    apply Hnull. right. exists []. split; reflexivity.
Defined.

Lemma getCoordinates_canvas (e : NativeEvent) (st st' : State) :
  canvas st' = canvas st →
  Whiteboard.getCoordinates e st' = Whiteboard.getCoordinates e st.
Proof. intros H. unfold Whiteboard.getCoordinates. by rewrite H. Qed.

Lemma handleMouseUp_settled
    (backend : gmap string JsValue → option PostgrestError) (st : State) :
  settle backend (Whiteboard.handleMouseUp st) =
  (set_currentPath [] (setIsDrawing false st),
   if (1 <? length (currentPath st))%nat
   then Insert "drawings"
               (stroke_row (currentPath st) (color st) (lineWidth st))
        :: match backend (stroke_row (currentPath st) (color st) (lineWidth st))
           with
           | Some err => [ConsoleError "Error saving drawing:" err]
           | None => []
           end
   else []).
Proof.
  unfold Whiteboard.handleMouseUp.
  destruct (1 <? length (currentPath st))%nat; reflexivity.
Qed.

(** C10: [handleMouseDown] sets [isDrawing] before it asks for the
    coordinate, so the flag is true after every call.  When
    [getCoordinates] returns null the handler does nothing else: the machine
    is in [Capturing] with the buffer it had (empty when the call follows a
    finished release), and a later move that does get a coordinate appends
    it to that buffer. *)
Theorem C10_down_sets_flag (e : NativeEvent) (st : State) :
  isDrawing (Whiteboard.handleMouseDown e st) = true
  ∧ (Whiteboard.getCoordinates e st = None →
     Whiteboard.handleMouseDown e st = setIsDrawing true st
     ∧ phase (Whiteboard.handleMouseDown e st) = Capturing
     ∧ currentPath (Whiteboard.handleMouseDown e st) = currentPath st
     ∧ (∀ backend st0,
          st = fst (settle backend (Whiteboard.handleMouseUp st0)) →
          currentPath (Whiteboard.handleMouseDown e st) = [])
     ∧ (∀ e' c,
          Whiteboard.getCoordinates e' st = Some c →
          currentPath
            (Whiteboard.handleMouseMove e' (Whiteboard.handleMouseDown e st))
          = currentPath st ++ [c])).
Proof.
  split.
  - unfold Whiteboard.handleMouseDown.
    destruct (Whiteboard.getCoordinates e (setIsDrawing true st)); [|done].
    destruct (get_context _); reflexivity.
  - intros Hnull.
    assert (Hdown : Whiteboard.handleMouseDown e st = setIsDrawing true st).
    { unfold Whiteboard.handleMouseDown.
      by rewrite (getCoordinates_canvas e st (setIsDrawing true st)), Hnull. }
    rewrite Hdown. repeat split.
    + intros backend st0 ->. by rewrite handleMouseUp_settled.
    + intros e' c Hc. unfold Whiteboard.handleMouseMove. simpl.
      rewrite (getCoordinates_canvas e' st (setIsDrawing true st)), Hc by done.
      destruct (get_context _); reflexivity.
Qed.

Lemma C10_down_sets_flag_witness :
  isDrawing
    (Whiteboard.handleMouseDown (TouchEvent []) (Whiteboard.mount 0 0 initial))
  = true
  ∧ currentPath
      (Whiteboard.handleMouseMove (MouseEvent 7 9)
         (Whiteboard.handleMouseDown (TouchEvent [])
            (Whiteboard.mount 0 0 initial)))
    = currentPath (Whiteboard.mount 0 0 initial) ++ [mkPoint 7 9].
Proof.
  destruct (C10_down_sets_flag (TouchEvent []) (Whiteboard.mount 0 0 initial))
    as [Hflag Hnull].
  split; [exact Hflag|].
  destruct Hnull as (_ & _ & _ & _ & Hmove); [reflexivity|].
  apply Hmove. reflexivity.
Defined.

(** C5: on release, whatever the backend answers, the buffer ends empty,
    the machine is in [Idle] and the canvas, with what was painted during
    capture, is as it was.  At most one insert is issued; when it fails the
    handler logs the error and does nothing more.  The part of the handler
    that runs after the call resolves clears the buffer and leaves the
    canvas alone on whatever state it resumes. *)
Theorem C5_release_failure_policy (st : State)
    (backend : gmap string JsValue → option PostgrestError) :
  currentPath (fst (settle backend (Whiteboard.handleMouseUp st))) = []
  ∧ canvas (fst (settle backend (Whiteboard.handleMouseUp st))) = canvas st
  ∧ phase (fst (settle backend (Whiteboard.handleMouseUp st))) = Idle
  ∧ (length (filter is_insert
               (snd (settle backend (Whiteboard.handleMouseUp st)))) ≤ 1)%nat
  ∧ (∀ err,
       (1 < length (currentPath st))%nat →
       backend (stroke_row (currentPath st) (color st) (lineWidth st))
       = Some err →
       snd (settle backend (Whiteboard.handleMouseUp st))
       = [Insert "drawings"
            (stroke_row (currentPath st) (color st) (lineWidth st));
          ConsoleError "Error saving drawing:" err])
  ∧ (∀ error st',
       currentPath (fst (Whiteboard.handleMouseUp_resume error st')) = []
       ∧ canvas (fst (Whiteboard.handleMouseUp_resume error st')) = canvas st').
Proof.
  rewrite handleMouseUp_settled. simpl. repeat split.
  - destruct (1 <? length (currentPath st))%nat; [|simpl; lia].
    destruct (backend _); simpl; lia.
  - intros err Hlen Herr. apply Nat.ltb_lt in Hlen. by rewrite Hlen, Herr.
Qed.

Lemma C5_release_failure_policy_witness :
  snd (settle (λ _, Some (mkError "permission denied" "42501"))
         (Whiteboard.handleMouseUp
            (set_currentPath [mkPoint 1 1; mkPoint 2 2]
               (Whiteboard.mount 0 0 initial))))
  = [Insert "drawings" (stroke_row [mkPoint 1 1; mkPoint 2 2] "#000000" 5);
     ConsoleError "Error saving drawing:" (mkError "permission denied" "42501")].
Proof.
  apply (C5_release_failure_policy
           (set_currentPath [mkPoint 1 1; mkPoint 2 2]
              (Whiteboard.mount 0 0 initial))
           (λ _, Some (mkError "permission denied" "42501"))).
  - simpl. lia.
  - reflexivity.
Defined.

(** ** The capture handlers, field by field *)

Lemma getCoordinates_box (e : NativeEvent) (st st' : State) :
  box st' = box st →
  Whiteboard.getCoordinates e st' = Whiteboard.getCoordinates e st.
Proof.
  unfold box, Whiteboard.getCoordinates.
  destruct (canvas st') as [[l' t' w' h' c']|], (canvas st) as [[l t w h c]|];
    simpl; intros H; try discriminate; [|reflexivity].
  by injection H as -> -> -> ->.
Qed.

Lemma box_put_context (c : Context2D) (st : State) :
  box (put_context c st) = box st.
Proof. unfold box, put_context. simpl. by destruct (canvas st). Qed.

Lemma handleMouseDown_fields (e : NativeEvent) (st : State) (c : Point) :
  Whiteboard.getCoordinates e st = Some c →
  currentPath (Whiteboard.handleMouseDown e st) = [c]
  ∧ isDrawing (Whiteboard.handleMouseDown e st) = true
  ∧ box (Whiteboard.handleMouseDown e st) = box st
  ∧ color (Whiteboard.handleMouseDown e st) = color st
  ∧ lineWidth (Whiteboard.handleMouseDown e st) = lineWidth st.
Proof.
  intros Hc. unfold Whiteboard.handleMouseDown.
  rewrite (getCoordinates_canvas e st (setIsDrawing true st)), Hc by done.
  destruct (get_context _); [|done].
  rewrite box_put_context. done.
Qed.

Lemma handleMouseMove_fields (e : NativeEvent) (st : State) (c : Point) :
  isDrawing st = true → Whiteboard.getCoordinates e st = Some c →
  currentPath (Whiteboard.handleMouseMove e st) = currentPath st ++ [c]
  ∧ isDrawing (Whiteboard.handleMouseMove e st) = true
  ∧ box (Whiteboard.handleMouseMove e st) = box st
  ∧ color (Whiteboard.handleMouseMove e st) = color st
  ∧ lineWidth (Whiteboard.handleMouseMove e st) = lineWidth st.
Proof.
  intros Hd Hc. unfold Whiteboard.handleMouseMove. rewrite Hd, Hc. simpl.
  destruct (get_context _); [|done].
  rewrite box_put_context. done.
Qed.

Lemma run_down (backend : gmap string JsValue → option PostgrestError)
    (e : NativeEvent) (rest : list Whiteboard.UIEvent) (st : State) :
  Whiteboard.run backend (Whiteboard.MouseDown e :: rest) st
  = Whiteboard.run backend rest (Whiteboard.handleMouseDown e st).
Proof.
  cbn [Whiteboard.run Whiteboard.dispatch Whiteboard.render
       Whiteboard.onMouseDown settle].
  by destruct (Whiteboard.run backend rest _).
Qed.

Lemma run_move (backend : gmap string JsValue → option PostgrestError)
    (e : NativeEvent) (rest : list Whiteboard.UIEvent) (st : State) :
  Whiteboard.run backend (Whiteboard.MouseMove e :: rest) st
  = Whiteboard.run backend rest (Whiteboard.handleMouseMove e st).
Proof.
  cbn [Whiteboard.run Whiteboard.dispatch Whiteboard.render
       Whiteboard.onMouseMove settle].
  by destruct (Whiteboard.run backend rest _).
Qed.

Lemma run_up (backend : gmap string JsValue → option PostgrestError)
    (e : NativeEvent) (st : State) :
  Whiteboard.run backend [Whiteboard.MouseUp e] st
  = settle backend (Whiteboard.handleMouseUp st).
Proof.
  cbn [Whiteboard.run Whiteboard.dispatch Whiteboard.render
       Whiteboard.onMouseUp].
  destruct (settle backend (Whiteboard.handleMouseUp st)) as [st1 out].
  by rewrite app_nil_r.
Qed.

(** C4: pointer-down, two moves and release, the coordinate obtained at
    each step being (10,10), (20,10) and (20,20): the down coordinate is the
    first buffered point, each move appends its point, and the one row
    submitted holds the path [(10,10); (20,10); (20,20)] under [path], with
    the current colour and width. *)
Theorem C4_scenario_path (st : State)
    (backend : gmap string JsValue → option PostgrestError)
    (e0 e1 e2 e : NativeEvent) :
  Whiteboard.getCoordinates e0 st = Some (mkPoint 10 10) →
  Whiteboard.getCoordinates e1 (Whiteboard.handleMouseDown e0 st)
  = Some (mkPoint 20 10) →
  Whiteboard.getCoordinates e2
    (Whiteboard.handleMouseMove e1 (Whiteboard.handleMouseDown e0 st))
  = Some (mkPoint 20 20) →
  currentPath (Whiteboard.handleMouseDown e0 st) = [mkPoint 10 10]
  ∧ currentPath
      (Whiteboard.handleMouseMove e1 (Whiteboard.handleMouseDown e0 st))
    = [mkPoint 10 10; mkPoint 20 10]
  ∧ currentPath
      (Whiteboard.handleMouseMove e2
         (Whiteboard.handleMouseMove e1 (Whiteboard.handleMouseDown e0 st)))
    = [mkPoint 10 10; mkPoint 20 10; mkPoint 20 20]
  ∧ ∃ row,
      filter is_insert
        (snd (Whiteboard.run backend
                [Whiteboard.MouseDown e0; Whiteboard.MouseMove e1;
                 Whiteboard.MouseMove e2; Whiteboard.MouseUp e] st))
      = [Insert "drawings" row]
      ∧ prop row "path" = JPath [mkPoint 10 10; mkPoint 20 10; mkPoint 20 20]
      ∧ prop row "color" = JStr (color st)
      ∧ prop row "linewidth" = JNum (lineWidth st).
Proof.
  intros H0 H1 H2.
  destruct (handleMouseDown_fields _ _ _ H0) as (Hp1 & Hd1 & Hb1 & Hc1 & Hw1).
  destruct (handleMouseMove_fields _ _ _ Hd1 H1)
    as (Hp2 & Hd2 & Hb2 & Hc2 & Hw2).
  destruct (handleMouseMove_fields _ _ _ Hd2 H2)
    as (Hp3 & Hd3 & Hb3 & Hc3 & Hw3).
  rewrite Hp2, Hp1 in Hp3. rewrite Hp1 in Hp2. simpl in Hp2, Hp3.
  repeat split; [exact Hp1|exact Hp2|exact Hp3|].
  exists (stroke_row [mkPoint 10 10; mkPoint 20 10; mkPoint 20 20]
                     (color st) (lineWidth st)).
  split.
  - rewrite run_down, !run_move, run_up, handleMouseUp_settled.
    rewrite Hp3, Hc3, Hc2, Hc1, Hw3, Hw2, Hw1. simpl.
    by destruct (backend _).
  - by rewrite prop_stroke_row_path, prop_stroke_row_color,
      prop_stroke_row_linewidth.
Qed.

Lemma C4_scenario_path_witness :
  ∃ row,
    filter is_insert
      (snd (Whiteboard.run (λ _, None)
              [Whiteboard.MouseDown (MouseEvent 110 60);
               Whiteboard.MouseMove (MouseEvent 120 60);
               Whiteboard.MouseMove (MouseEvent 120 70);
               Whiteboard.MouseUp (MouseEvent 120 70)]
              (Whiteboard.mount 100 50 initial)))
    = [Insert "drawings" row]
    ∧ prop row "path" = JPath [mkPoint 10 10; mkPoint 20 10; mkPoint 20 20]
    ∧ prop row "color" = JStr "#000000"
    ∧ prop row "linewidth" = JNum 5.
Proof.
  apply (C4_scenario_path (Whiteboard.mount 100 50 initial) (λ _, None)
           (MouseEvent 110 60) (MouseEvent 120 60) (MouseEvent 120 70)
           (MouseEvent 120 70));
    reflexivity.
Defined.

(** The row [handleMouseUp] submits has no [lineWidth] key, the key
    [drawPath] of [src/components/Whiteboard.tsx] reads: the receiver keeps
    the width its pen had. *)
Lemma pen_for_lineWidth_row (p : list Point) (c : string) (w : Z) (pen : Pen) :
  pen_for "lineWidth" (stroke_row p c w) pen
  = mkPen c (pen_width pen) CapRound JoinRound.
Proof.
  unfold pen_for.
  by rewrite prop_stroke_row_color, prop_stroke_row_lineWidth.
Qed.

(** The revised component reads the key the row has. *)
Lemma pen_for_linewidth_row (p : list Point) (c : string) (w : Z) (pen : Pen) :
  (0 < w)%Z →
  pen_for "linewidth" (stroke_row p c w) pen = mkPen c w CapRound JoinRound.
Proof.
  intros Hw. unfold pen_for.
  rewrite prop_stroke_row_color, prop_stroke_row_linewidth.
  apply Z.ltb_lt in Hw. by rewrite Hw.
Qed.

(** C2: a stroke drawn in red with width 12 and released is submitted as a
    row holding width 12 under the key [linewidth]; a freshly mounted client
    that receives the notification of that row paints the path in red, with
    the width its pen had (1), not 12. *)
Theorem C2_received_width_lost :
  ∃ row,
    snd (Whiteboard.run (λ _, None)
           [Whiteboard.MouseDown (MouseEvent 0 0);
            Whiteboard.MouseMove (MouseEvent 30 40);
            Whiteboard.MouseUp (MouseEvent 30 40)]
           (setLineWidth 12 (setColor "#ff0000" (Whiteboard.mount 0 0 initial))))
    = [Insert "drawings" row]
    ∧ prop row "linewidth" = JNum 12
    ∧ in_view
        (Whiteboard.receive (PostgresInsert "public" "drawings" row)
           (Whiteboard.mount 0 0 initial))
      = [(mkPen "#ff0000" 1 CapRound JoinRound,
          [[mkPoint 0 0; mkPoint 30 40]])].
Proof.
  exists (stroke_row [mkPoint 0 0; mkPoint 30 40] "#ff0000" 12).
  split; [reflexivity|]. split; [apply prop_stroke_row_linewidth|].
  vm_compute. reflexivity.
Qed.

(** ** The Clear control *)

Lemma clearCanvasLocal_blank (st : State) :
  blank_state (WhiteboardSync.clearCanvasLocal st).
Proof.
  unfold blank_state, in_view, WhiteboardSync.clearCanvasLocal, put_context.
  destruct (canvas st) as [cv|] eqn:Hcv.
  - destruct (context2d cv) as [ctx|] eqn:Hctx.
    + simpl. apply visible_cleared.
    + by rewrite Hcv, Hctx.
  - by rewrite Hcv.
Qed.

Lemma clearCanvasLocal_channelRef (st : State) :
  channelRef (WhiteboardSync.clearCanvasLocal st) = channelRef st.
Proof.
  unfold WhiteboardSync.clearCanvasLocal.
  destruct (canvas st) as [cv|]; [|done].
  by destruct (context2d cv).
Qed.

Lemma component_clearCanvas_local (st : State) :
  Whiteboard.clearCanvas st = (WhiteboardSync.clearCanvasLocal st, []).
Proof.
  unfold Whiteboard.clearCanvas, WhiteboardSync.clearCanvasLocal.
  destruct (canvas st) as [cv|]; [|done].
  by destruct (context2d cv).
Qed.

(** C1, as stated, fails on [src/components/Whiteboard.tsx]: its
    [clearCanvas] emits nothing, and a second client keeps its stroke in
    view after the first has cleared. *)
Lemma C1_component_clear_is_local :
  ¬ emits_clear (snd (Whiteboard.clearCanvas painted_client))
  ∧ ∃ st1,
      clients (act Whiteboard.receive Whiteboard.clearCanvas 0
                 (mkSystem [painted_client; painted_client] []))
      !! 1%nat = Some st1
      ∧ ¬ blank_state st1.
Proof.
  split.
  - intros [chan Hin]. rewrite component_clearCanvas_local in Hin.
    simpl in Hin. by apply elem_of_nil in Hin.
  - eexists. split; [vm_compute; reflexivity|].
    unfold blank_state. vm_compute. discriminate.
Qed.

(** C1, amended: in the revised component, [clearCanvas] wipes the local
    surface and then, the channel reference being set, sends one clear
    broadcast on the channel; every other client subscribed to it on that
    channel wipes its surface on receipt, and the rows of the table are as
    they were.  In [src/components/Whiteboard.tsx], [clearCanvas] wipes the
    local surface and emits nothing. *)
Theorem C1_clear_broadcast (sys : System) (i : nat) (st : State)
    (ch : Channel) :
  clients sys !! i = Some st → channelRef st = Some ch →
  blank_state (fst (WhiteboardSync.clearCanvas st))
  ∧ snd (WhiteboardSync.clearCanvas st) = [Send (topic ch) "broadcast" "clear"]
  ∧ clients (act WhiteboardSync.receive WhiteboardSync.clearCanvas i sys) !! i
    = Some (fst (WhiteboardSync.clearCanvas st))
  ∧ (∀ j stj,
       j ≠ i → clients sys !! j = Some stj →
       on_topic (topic ch) stj = true →
       WhiteboardSync.listens (Broadcast "clear") stj = true →
       ∃ stj',
         clients (act WhiteboardSync.receive WhiteboardSync.clearCanvas i sys)
         !! j = Some stj'
         ∧ blank_state stj')
  ∧ drawings (act WhiteboardSync.receive WhiteboardSync.clearCanvas i sys)
    = drawings sys
  ∧ (∀ st0,
       blank_state (fst (Whiteboard.clearCanvas st0))
       ∧ snd (Whiteboard.clearCanvas st0) = []).
Proof.
  intros Hi Hch.
  assert (Hout : WhiteboardSync.clearCanvas st
                 = (WhiteboardSync.clearCanvasLocal st,
                    [Send (topic ch) "broadcast" "clear"])).
  { unfold WhiteboardSync.clearCanvas.
    by rewrite clearCanvasLocal_channelRef, Hch. }
  assert (Hact : act WhiteboardSync.receive WhiteboardSync.clearCanvas i sys
                 = relay WhiteboardSync.receive i
                     (mkSystem (<[i := WhiteboardSync.clearCanvasLocal st]>
                                  (clients sys)) (drawings sys))
                     (Send (topic ch) "broadcast" "clear")).
  { unfold act. by rewrite Hi, Hout. }
  rewrite Hact, Hout. simpl.
  split; [apply clearCanvasLocal_blank|]. split; [reflexivity|].
  split; [|split; [|split; [reflexivity|]]].
  - rewrite list_lookup_imap, list_lookup_insert_eq
      by (by eapply lookup_lt_Some).
    simpl. by rewrite bool_decide_eq_true_2.
  - intros j stj Hne Hj Htopic Hsub.
    rewrite list_lookup_imap, list_lookup_insert_ne, Hj by done.
    simpl. rewrite bool_decide_eq_false_2, Htopic, Hsub by done.
    eexists. split; [reflexivity|apply clearCanvasLocal_blank].
  - intros st0. rewrite component_clearCanvas_local. simpl.
    split; [apply clearCanvasLocal_blank|reflexivity].
Qed.

Lemma C1_clear_broadcast_witness :
  snd (WhiteboardSync.clearCanvas painted_sync_client)
  = [Send "whiteboard-drawings" "broadcast" "clear"]
  ∧ ∃ st1,
      clients (act WhiteboardSync.receive WhiteboardSync.clearCanvas 0
                 (mkSystem [painted_sync_client; painted_sync_client]
                    [stroke_row [mkPoint 0 0; mkPoint 3 4] "#000000" 5]))
      !! 1%nat = Some st1
      ∧ blank_state st1.
Proof.
  destruct (C1_clear_broadcast
              (mkSystem [painted_sync_client; painted_sync_client]
                 [stroke_row [mkPoint 0 0; mkPoint 3 4] "#000000" 5])
              0 painted_sync_client WhiteboardSync.channel)
    as (_ & Hsend & _ & Hothers & _); [reflexivity|reflexivity|].
  split; [exact Hsend|].
  apply (Hothers 1%nat painted_sync_client);
    [lia|reflexivity|reflexivity|reflexivity].
Defined.

(** ** Further properties of the capture handlers *)

Lemma handleMouseMove_idle (e : NativeEvent) (st : State) :
  isDrawing st = false → Whiteboard.handleMouseMove e st = st.
Proof. intros H. unfold Whiteboard.handleMouseMove. by rewrite H. Qed.

Lemma handleMouseMove_null (e : NativeEvent) (st : State) :
  Whiteboard.getCoordinates e st = None → Whiteboard.handleMouseMove e st = st.
Proof.
  intros H. unfold Whiteboard.handleMouseMove. rewrite H.
  by destruct (isDrawing st).
Qed.

Lemma run_moves (backend : gmap string JsValue → option PostgrestError)
    (es : list NativeEvent) (rest : list Whiteboard.UIEvent) (st : State) :
  Whiteboard.run backend ((Whiteboard.MouseMove <$> es) ++ rest) st
  = Whiteboard.run backend rest
      (fold_left (λ s e, Whiteboard.handleMouseMove e s) es st).
Proof.
  revert st. induction es as [|e es IH]; intros st; [done|].
  rewrite fmap_cons, <- app_comm_cons, run_move. apply IH.
Qed.

Lemma run_stroke (backend : gmap string JsValue → option PostgrestError)
    (e0 : NativeEvent) (es : list NativeEvent) (e : NativeEvent) (st : State) :
  Whiteboard.run backend (stroke_events e0 es e) st
  = settle backend (Whiteboard.handleMouseUp (capture e0 es st)).
Proof.
  unfold stroke_events, capture. by rewrite run_down, run_moves, run_up.
Qed.

Lemma capture_snoc (e0 : NativeEvent) (es : list NativeEvent) (e : NativeEvent)
    (st : State) :
  capture e0 (es ++ [e]) st = Whiteboard.handleMouseMove e (capture e0 es st).
Proof. unfold capture. by rewrite fold_left_app. Qed.

Lemma capture_fields (e0 : NativeEvent) (es : list NativeEvent) (st : State)
    (c0 : Point) :
  Whiteboard.getCoordinates e0 st = Some c0 →
  currentPath (capture e0 es st)
  = c0 :: omap (λ e, Whiteboard.getCoordinates e st) es
  ∧ isDrawing (capture e0 es st) = true
  ∧ box (capture e0 es st) = box st
  ∧ color (capture e0 es st) = color st
  ∧ lineWidth (capture e0 es st) = lineWidth st.
Proof.
  intros H0. induction es as [|e es (Hp & Hd & Hb & Hc & Hw)] using rev_ind.
  - by apply handleMouseDown_fields.
  - rewrite capture_snoc, omap_app. simpl.
    destruct (Whiteboard.getCoordinates e st) as [c|] eqn:He;
      rewrite <- (getCoordinates_box e _ _ Hb) in He.
    + destruct (handleMouseMove_fields _ _ _ Hd He)
        as (Hp' & Hd' & Hb' & Hc' & Hw').
      rewrite Hp', Hd', Hb', Hc', Hw', Hp, Hb, Hc, Hw. done.
    + rewrite handleMouseMove_null, app_nil_r by done. done.
Qed.

(** X1: the two revisions of [getCoordinates] ([event.touches[0]] against
    [event.touches && event.touches.length > 0]) return the same result on
    every event. *)
Theorem X1_getCoordinates_revisions_agree (event : NativeEvent) (st : State) :
  WhiteboardSync.getCoordinates event st = Whiteboard.getCoordinates event st.
Proof.
  unfold WhiteboardSync.getCoordinates, Whiteboard.getCoordinates.
  destruct (canvas st) as [cv|]; [|done].
  by destruct event as [cx cy|[|t ts]].
Qed.

(** X3: pointer moves while the machine is [Idle] do nothing: no point is
    buffered, nothing is painted, nothing is emitted, however many moves
    arrive. *)
Theorem X3_idle_moves_ignored
    (backend : gmap string JsValue → option PostgrestError)
    (es : list NativeEvent) (st : State) :
  isDrawing st = false →
  Whiteboard.run backend (Whiteboard.MouseMove <$> es) st = (st, []).
Proof.
  intros Hidle. rewrite <- (app_nil_r (_ <$> es)), run_moves. simpl.
  f_equal. induction es as [|e es IH]; [done|].
  simpl. by rewrite handleMouseMove_idle.
Qed.

Lemma X3_idle_moves_ignored_witness :
  Whiteboard.run (λ _, None)
    (Whiteboard.MouseMove <$> [MouseEvent 3 4; MouseEvent 5 6])
    (Whiteboard.mount 0 0 initial)
  = (Whiteboard.mount 0 0 initial, []).
Proof.
  apply (X3_idle_moves_ignored (λ _, None) [MouseEvent 3 4; MouseEvent 5 6]
           (Whiteboard.mount 0 0 initial)).
  reflexivity.
Defined.

(** X4: one whole stroke.  When the down event yields a coordinate, the
    buffer at release is that coordinate followed by the coordinates of the
    moves, in order, the moves without a coordinate being skipped; whatever
    was buffered before is discarded.  When that path has 2 points or more
    the release submits one row, holding the path under [path], the current
    colour under [color] and the current width under [linewidth]; otherwise
    it submits nothing.  It leaves the buffer empty and the machine in
    [Idle]. *)
Theorem X4_stroke_submitted
    (backend : gmap string JsValue → option PostgrestError)
    (e0 : NativeEvent) (es : list NativeEvent) (e : NativeEvent) (st : State)
    (c0 : Point) :
  Whiteboard.getCoordinates e0 st = Some c0 →
  currentPath (capture e0 es st)
  = c0 :: omap (λ ev, Whiteboard.getCoordinates ev st) es
  ∧ ((1 < length (c0 :: omap (λ ev, Whiteboard.getCoordinates ev st) es))%nat →
     ∃ row,
       filter is_insert
         (snd (Whiteboard.run backend (stroke_events e0 es e) st))
       = [Insert "drawings" row]
       ∧ prop row "path"
         = JPath (c0 :: omap (λ ev, Whiteboard.getCoordinates ev st) es)
       ∧ prop row "color" = JStr (color st)
       ∧ prop row "linewidth" = JNum (lineWidth st))
  ∧ ((length (c0 :: omap (λ ev, Whiteboard.getCoordinates ev st) es) ≤ 1)%nat →
     filter is_insert (snd (Whiteboard.run backend (stroke_events e0 es e) st))
     = [])
  ∧ currentPath (fst (Whiteboard.run backend (stroke_events e0 es e) st)) = []
  ∧ phase (fst (Whiteboard.run backend (stroke_events e0 es e) st)) = Idle.
Proof.
  intros H0.
  destruct (capture_fields e0 es st c0 H0) as (Hp & _ & _ & Hc & Hw).
  split; [exact Hp|].
  rewrite run_stroke, handleMouseUp_settled, Hp, Hc, Hw.
  cbn [fst snd]. split; [|split; [|done]].
  - intros Hlen. apply Nat.ltb_lt in Hlen. rewrite Hlen.
    eexists. split; [by destruct (backend _)|].
    by rewrite prop_stroke_row_path, prop_stroke_row_color,
      prop_stroke_row_linewidth.
  - intros Hlen. apply Nat.ltb_ge in Hlen. by rewrite Hlen.
Qed.

Lemma X4_stroke_submitted_witness :
  ∃ row,
    filter is_insert
      (snd (Whiteboard.run (λ _, None)
              (stroke_events (MouseEvent 1 1)
                 [MouseEvent 2 2; TouchEvent []; MouseEvent 3 5]
                 (MouseEvent 3 5))
              (set_currentPath [mkPoint 9 9] (Whiteboard.mount 0 0 initial))))
    = [Insert "drawings" row]
    ∧ prop row "path" = JPath [mkPoint 1 1; mkPoint 2 2; mkPoint 3 5]
    ∧ prop row "color" = JStr "#000000"
    ∧ prop row "linewidth" = JNum 5.
Proof.
  destruct (X4_stroke_submitted (λ _, None) (MouseEvent 1 1)
              [MouseEvent 2 2; TouchEvent []; MouseEvent 3 5] (MouseEvent 3 5)
              (set_currentPath [mkPoint 9 9] (Whiteboard.mount 0 0 initial))
              (mkPoint 1 1)) as (_ & Hrow & _); [reflexivity|].
  apply Hrow. simpl. lia.
Defined.

(** X5: a release followed by the pointer leaving the surface submits the
    stroke once: the leave finds the buffer empty, so the two events end in
    the state, and with the effects, of the release alone. *)
Theorem X5_release_then_leave
    (backend : gmap string JsValue → option PostgrestError)
    (e e' : NativeEvent) (st : State) :
  Whiteboard.run backend [Whiteboard.MouseUp e; Whiteboard.MouseLeave e'] st
  = settle backend (Whiteboard.handleMouseUp st).
Proof.
  cbn [Whiteboard.run Whiteboard.dispatch Whiteboard.render
       Whiteboard.onMouseUp Whiteboard.onMouseLeave].
  rewrite handleMouseUp_settled.
  rewrite (handleMouseUp_settled backend (set_currentPath [] _)).
  simpl. by rewrite app_nil_r.
Qed.

(** X6: the buffer is cleared only after the awaited insert resolves.  The
    state the release handler leaves at its await still holds the path, so
    a second release (or a leave) handled before the first insert resolves
    awaits an insert of the same row again. *)
Theorem X6_release_while_pending (st : State) :
  (1 < length (currentPath st))%nat →
  Whiteboard.handleMouseUp st
  = Await (setIsDrawing false st) "drawings"
          (stroke_row (currentPath st) (color st) (lineWidth st))
          Whiteboard.handleMouseUp_resume
  ∧ currentPath (setIsDrawing false st) = currentPath st
  ∧ Whiteboard.handleMouseUp (setIsDrawing false st)
    = Await (setIsDrawing false st) "drawings"
            (stroke_row (currentPath st) (color st) (lineWidth st))
            Whiteboard.handleMouseUp_resume.
Proof.
  intros Hlen. apply Nat.ltb_lt in Hlen.
  unfold Whiteboard.handleMouseUp. simpl. by rewrite Hlen.
Qed.

Lemma X6_release_while_pending_witness :
  Whiteboard.handleMouseUp
    (setIsDrawing false
       (set_currentPath [mkPoint 1 1; mkPoint 2 2]
          (Whiteboard.mount 0 0 initial)))
  = Await (setIsDrawing false
             (set_currentPath [mkPoint 1 1; mkPoint 2 2]
                (Whiteboard.mount 0 0 initial)))
          "drawings"
          (stroke_row [mkPoint 1 1; mkPoint 2 2] "#000000" 5)
          Whiteboard.handleMouseUp_resume.
Proof.
  apply (X6_release_while_pending
           (set_currentPath [mkPoint 1 1; mkPoint 2 2]
              (Whiteboard.mount 0 0 initial))).
  simpl. lia.
Defined.

(** X7: a pointer-down handled while the insert of the previous stroke is
    pending starts a new buffer, and the release handler, when it resumes,
    empties that buffer while the machine stays in [Capturing]: the new
    stroke then holds only the points of the moves that follow. *)
Theorem X7_resume_clears_new_capture (st : State) (e0 e1 : NativeEvent)
    (c0 c1 : Point) (error : option PostgrestError) :
  Whiteboard.getCoordinates e0 st = Some c0 →
  Whiteboard.getCoordinates e1 st = Some c1 →
  currentPath (Whiteboard.handleMouseDown e0 (setIsDrawing false st)) = [c0]
  ∧ phase (fst (Whiteboard.handleMouseUp_resume error
                  (Whiteboard.handleMouseDown e0 (setIsDrawing false st))))
    = Capturing
  ∧ currentPath
      (fst (Whiteboard.handleMouseUp_resume error
              (Whiteboard.handleMouseDown e0 (setIsDrawing false st))))
    = []
  ∧ currentPath
      (Whiteboard.handleMouseMove e1
         (fst (Whiteboard.handleMouseUp_resume error
                 (Whiteboard.handleMouseDown e0 (setIsDrawing false st)))))
    = [c1].
Proof.
  intros H0 H1.
  rewrite <- (getCoordinates_canvas e0 st (setIsDrawing false st)) in H0 by done.
  destruct (handleMouseDown_fields _ _ _ H0) as (Hp & Hd & Hb & _).
  split; [exact Hp|]. unfold Whiteboard.handleMouseUp_resume, phase.
  cbn [fst]. simpl isDrawing. rewrite Hd. do 2 (split; [done|]).
  assert (H1' : Whiteboard.getCoordinates e1
                  (set_currentPath []
                     (Whiteboard.handleMouseDown e0 (setIsDrawing false st)))
                = Some c1).
  { rewrite <- H1. apply getCoordinates_box.
    transitivity (box (Whiteboard.handleMouseDown e0 (setIsDrawing false st)));
      [done|]. by rewrite Hb. }
  by destruct (handleMouseMove_fields e1
                 (set_currentPath []
                    (Whiteboard.handleMouseDown e0 (setIsDrawing false st)))
                 c1 Hd H1') as (-> & _).
Qed.

Lemma X7_resume_clears_new_capture_witness :
  currentPath
    (Whiteboard.handleMouseMove (MouseEvent 8 8)
       (fst (Whiteboard.handleMouseUp_resume None
               (Whiteboard.handleMouseDown (MouseEvent 7 7)
                  (setIsDrawing false
                     (set_currentPath [mkPoint 1 1; mkPoint 2 2]
                        (Whiteboard.mount 0 0 initial)))))))
  = [mkPoint 8 8].
Proof.
  apply (X7_resume_clears_new_capture
           (set_currentPath [mkPoint 1 1; mkPoint 2 2]
              (Whiteboard.mount 0 0 initial))
           (MouseEvent 7 7) (MouseEvent 8 8) (mkPoint 7 7) (mkPoint 8 8) None);
    reflexivity.
Defined.

(** ** What a capture paints *)

Lemma lineTo_eq (px py : Z) (pen : Pen) (sp : list (list Point))
    (ms : list Mark) (calls : list CanvasCall) :
  lineTo px py (mkContext2D pen sp ms calls) =
  mkContext2D pen (extend_last (mkPoint px py) sp) ms (calls ++ [LineTo px py]).
Proof. reflexivity. Qed.

Lemma moveTo_eq (px py : Z) (pen : Pen) (sp : list (list Point))
    (ms : list Mark) (calls : list CanvasCall) :
  moveTo px py (mkContext2D pen sp ms calls) =
  mkContext2D pen (sp ++ [[mkPoint px py]]) ms (calls ++ [MoveTo px py]).
Proof. reflexivity. Qed.

Lemma stroke_eq (pen : Pen) (sp : list (list Point))
    (ms : list Mark) (calls : list CanvasCall) :
  stroke (mkContext2D pen sp ms calls) =
  mkContext2D pen sp (ms ++ [Stroked pen sp]) (calls ++ [Stroke]).
Proof. reflexivity. Qed.

Lemma get_context_Some (st : State) (c : Context2D) :
  get_context st = Some c ↔
  ∃ cv, canvas st = Some cv ∧ context2d cv = Some c.
Proof.
  unfold get_context. destruct (canvas st) as [cv|]; simpl.
  - split; [by exists cv|]. by intros (cv' & [= <-] & H).
  - split; [done|]. by intros (cv' & H & _).
Qed.

Lemma get_context_put (c c0 : Context2D) (st : State) :
  get_context st = Some c0 → get_context (put_context c st) = Some c.
Proof.
  intros (cv & Hcv & _)%get_context_Some.
  unfold get_context, put_context. simpl. by rewrite Hcv.
Qed.

Lemma handleMouseDown_ctx (e : NativeEvent) (st : State) (c : Point)
    (ctx : Context2D) :
  Whiteboard.getCoordinates e st = Some c → get_context st = Some ctx →
  Whiteboard.handleMouseDown e st =
  put_context
    (mkContext2D (ctx_pen ctx) [[c]] (ctx_marks ctx)
                 (ctx_calls ctx ++ [BeginPath; MoveTo (x c) (y c)]))
    (set_currentPath [c] (setIsDrawing true st)).
Proof.
  intros Hc Hctx. unfold Whiteboard.handleMouseDown.
  rewrite (getCoordinates_canvas e st (setIsDrawing true st)), Hc by done.
  change (get_context (set_currentPath [c] (setIsDrawing true st)))
    with (get_context st).
  rewrite Hctx. destruct ctx as [pen sp ms calls].
  rewrite beginPath_eq, moveTo_eq, point_eta, <- app_assoc. reflexivity.
Qed.

Lemma handleMouseMove_ctx (e : NativeEvent) (st : State) (c : Point)
    (ctx : Context2D) :
  isDrawing st = true →
  Whiteboard.getCoordinates e st = Some c → get_context st = Some ctx →
  Whiteboard.handleMouseMove e st =
  put_context
    (mkContext2D
       (mkPen (color st)
              (if (0 <? lineWidth st)%Z then lineWidth st
               else pen_width (ctx_pen ctx))
              CapRound JoinRound)
       (extend_last c (ctx_path ctx))
       (ctx_marks ctx ++
        [Stroked
           (mkPen (color st)
                  (if (0 <? lineWidth st)%Z then lineWidth st
                   else pen_width (ctx_pen ctx))
                  CapRound JoinRound)
           (extend_last c (ctx_path ctx))])
       (ctx_calls ctx ++
        [SetStrokeStyle (JStr (color st)); SetLineWidth (JNum (lineWidth st));
         SetLineCap CapRound; SetLineJoin JoinRound; LineTo (x c) (y c);
         Stroke]))
    (set_currentPath (currentPath st ++ [c]) st).
Proof.
  intros Hd Hc Hctx. unfold Whiteboard.handleMouseMove.
  rewrite Hd, Hc. cbn [negb].
  change (get_context (set_currentPath (currentPath st ++ [c]) st))
    with (get_context st).
  rewrite Hctx. destruct ctx as [pen sp ms calls].
  change (color (set_currentPath (currentPath st ++ [c]) st)) with (color st).
  change (lineWidth (set_currentPath (currentPath st ++ [c]) st))
    with (lineWidth st).
  rewrite set_strokeStyle_eq, set_lineWidth_eq, set_lineCap_eq,
    set_lineJoin_eq, lineTo_eq, stroke_eq, point_eta.
  cbn [ctx_pen ctx_path ctx_marks ctx_calls pen_style pen_width pen_cap
       pen_join].
  by rewrite <- !app_assoc.
Qed.

Lemma strokes_of_snoc (p0 : Point) (path : list Point) (c : Point) :
  strokes_of ((p0 :: path) ++ [c])
  = strokes_of (p0 :: path) ++ [(p0 :: path) ++ [c]].
Proof.
  unfold strokes_of. rewrite length_app. simpl length.
  replace (S (length path) + 1 - 1)%nat with (S (length path)) by lia.
  replace (S (length path) - 1)%nat with (length path) by lia.
  rewrite seq_S, fmap_app. f_equal.
  - apply Forall_fmap_ext, Forall_forall. intros k Hk.
    apply list_elem_of_In, in_seq in Hk.
    apply (take_app_le (p0 :: path) [c]). simpl. lia.
  - change ([take (2 + length path) ((p0 :: path) ++ [c])]
            = [(p0 :: path) ++ [c]]).
    f_equal. apply take_ge. rewrite length_app. simpl. lia.
Qed.

Lemma capture_paints (e0 : NativeEvent) (es : list NativeEvent)
    (st : State) (c0 : Point) (ctx : Context2D) :
  get_context st = Some ctx → (0 < lineWidth st)%Z →
  Whiteboard.getCoordinates e0 st = Some c0 →
  ∃ ctx',
    get_context (capture e0 es st) = Some ctx'
    ∧ ctx_path ctx' = [currentPath (capture e0 es st)]
    ∧ ctx_marks ctx' =
      ctx_marks ctx ++
      ((λ p, Stroked (local_pen st) [p])
         <$> strokes_of (currentPath (capture e0 es st))).
Proof.
  intros Hctx Hw H0. induction es as [|e es (ctx' & Hg & Hp & Hm)] using rev_ind.
  - unfold capture. simpl. rewrite (handleMouseDown_ctx _ _ _ _ H0 Hctx).
    eexists. split; [by eapply get_context_put|].
    simpl. by rewrite app_nil_r.
  - destruct (capture_fields e0 es st c0 H0) as (Hb & Hd & Hbox & Hc & Hlw).
    rewrite capture_snoc.
    destruct (Whiteboard.getCoordinates e (capture e0 es st)) as [c|] eqn:He.
    + rewrite (handleMouseMove_ctx _ _ _ _ Hd He Hg).
      eexists. split; [by eapply get_context_put|].
      cbn [ctx_path ctx_marks]. rewrite Hp, Hc, Hlw.
      apply Z.ltb_lt in Hw. rewrite Hw.
      change (currentPath (put_context ?c (set_currentPath ?p ?s))) with p.
      simpl extend_last. split; [done|].
      rewrite Hm, Hb, strokes_of_snoc, fmap_app, <- app_assoc. reflexivity.
    + rewrite handleMouseMove_null by done. by exists ctx'.
Qed.


(** X8: the optimistic rendering.  On a client with a drawing context and
    a positive width, after a pointer-down that yields a coordinate and any
    number of moves, the context's current path is the single subpath
    holding the buffer, and the capture has painted, move after move, each
    prefix of the buffer of 2 points or more, always with the local colour
    and width (round caps and joins), whatever pen the context had. *)
Theorem X8_capture_paints_buffer (e0 : NativeEvent) (es : list NativeEvent)
    (st : State) (c0 : Point) (ctx : Context2D) :
  get_context st = Some ctx → (0 < lineWidth st)%Z →
  Whiteboard.getCoordinates e0 st = Some c0 →
  ∃ ctx',
    get_context (capture e0 es st) = Some ctx'
    ∧ ctx_path ctx' = [currentPath (capture e0 es st)]
    ∧ ctx_marks ctx' =
      ctx_marks ctx ++
      ((λ p, Stroked (local_pen st) [p])
         <$> strokes_of (currentPath (capture e0 es st))).
Proof. apply capture_paints. Qed.

Lemma X8_capture_paints_buffer_witness :
  ∃ ctx',
    get_context
      (capture (MouseEvent 1 1) [MouseEvent 2 2; MouseEvent 3 5]
         (Whiteboard.mount 0 0 initial)) = Some ctx'
    ∧ ctx_path ctx' =
      [currentPath
         (capture (MouseEvent 1 1) [MouseEvent 2 2; MouseEvent 3 5]
            (Whiteboard.mount 0 0 initial))]
    ∧ ctx_marks ctx' =
      ctx_marks fresh_context ++
      ((λ p, Stroked (local_pen (Whiteboard.mount 0 0 initial)) [p])
         <$> strokes_of
               (currentPath
                  (capture (MouseEvent 1 1) [MouseEvent 2 2; MouseEvent 3 5]
                     (Whiteboard.mount 0 0 initial)))).
Proof.
  apply (X8_capture_paints_buffer (MouseEvent 1 1)
           [MouseEvent 2 2; MouseEvent 3 5] (Whiteboard.mount 0 0 initial)
           (mkPoint 1 1) fresh_context).
  - reflexivity.
  - reflexivity.
  - reflexivity.
Defined.

(** ** Received strokes *)

Lemma sync_drawPath_row (st : State) (ctx : Context2D)
    (path : list Point) (c : string) (w : Z) :
  get_context st = Some ctx → (2 ≤ length path)%nat → (0 < w)%Z →
  ∃ ctx',
    get_context (WhiteboardSync.drawPath (stroke_row path c w) st) = Some ctx'
    ∧ ctx_marks ctx' =
      ctx_marks ctx ++ [Stroked (mkPen c w CapRound JoinRound) [path]].
Proof.
  intros (cv & Hcv & Hctx)%get_context_Some Hlen Hw.
  unfold WhiteboardSync.drawPath.
  rewrite (drawPath_renders _ _ _ _ _ _ Hcv Hctx
             (prop_stroke_row_path path c w) Hlen).
  eexists. split; [reflexivity|]. simpl.
  by rewrite pen_for_linewidth_row.
Qed.


(** X9: in the revised component a received row is painted as submitted:
    on a client with a drawing context, the row [handleMouseUp] builds from
    a path of 2 points or more, a colour and a positive width is stroked as
    that one polyline, in that colour and that width. *)
Theorem X9_revised_renders_submitted (st : State) (ctx : Context2D)
    (path : list Point) (c : string) (w : Z) :
  get_context st = Some ctx → (2 ≤ length path)%nat → (0 < w)%Z →
  ∃ ctx',
    get_context (WhiteboardSync.drawPath (stroke_row path c w) st) = Some ctx'
    ∧ ctx_marks ctx' =
      ctx_marks ctx ++ [Stroked (mkPen c w CapRound JoinRound) [path]].
Proof. apply sync_drawPath_row. Qed.

Lemma X9_revised_renders_submitted_witness :
  ∃ ctx',
    get_context
      (WhiteboardSync.drawPath
         (stroke_row [mkPoint 0 0; mkPoint 30 40] "#ff0000" 12)
         (WhiteboardSync.mount 0 0 initial)) = Some ctx'
    ∧ ctx_marks ctx' =
      ctx_marks fresh_context ++
      [Stroked (mkPen "#ff0000" 12 CapRound JoinRound)
               [[mkPoint 0 0; mkPoint 30 40]]].
Proof.
  apply (X9_revised_renders_submitted (WhiteboardSync.mount 0 0 initial)
           fresh_context [mkPoint 0 0; mkPoint 30 40] "#ff0000" 12).
  - reflexivity.
  - simpl. lia.
  - lia.
Defined.

(** X10: in [src/components/Whiteboard.tsx] a received row is painted with
    its path and its colour, and with the line width the receiving context
    already had, whatever width the row holds. *)
Theorem X10_component_keeps_own_width (st : State) (ctx : Context2D)
    (path : list Point) (c : string) (w : Z) :
  get_context st = Some ctx → (2 ≤ length path)%nat →
  ∃ ctx',
    get_context (Whiteboard.drawPath (stroke_row path c w) st) = Some ctx'
    ∧ ctx_marks ctx' =
      ctx_marks ctx ++
      [Stroked (mkPen c (pen_width (ctx_pen ctx)) CapRound JoinRound) [path]].
Proof.
  intros (cv & Hcv & Hctx)%get_context_Some Hlen.
  unfold Whiteboard.drawPath.
  rewrite (drawPath_renders _ _ _ _ _ _ Hcv Hctx
             (prop_stroke_row_path path c w) Hlen).
  eexists. split; [reflexivity|]. simpl.
  by rewrite pen_for_lineWidth_row.
Qed.

Lemma X10_component_keeps_own_width_witness :
  ∃ ctx',
    get_context
      (Whiteboard.drawPath
         (stroke_row [mkPoint 0 0; mkPoint 30 40] "#ff0000" 12)
         (Whiteboard.mount 0 0 initial)) = Some ctx'
    ∧ ctx_marks ctx' =
      ctx_marks fresh_context ++
      [Stroked (mkPen "#ff0000" (pen_width (ctx_pen fresh_context))
                      CapRound JoinRound)
               [[mkPoint 0 0; mkPoint 30 40]]].
Proof.
  apply (X10_component_keeps_own_width (Whiteboard.mount 0 0 initial)
           fresh_context [mkPoint 0 0; mkPoint 30 40] "#ff0000" 12).
  - reflexivity.
  - simpl. lia.
Defined.

Lemma drawPath_box (width_key : string) (draw : gmap string JsValue)
    (st : State) :
  box (drawPath_with width_key draw st) = box st.
Proof.
  unfold drawPath_with.
  destruct (get_context st), (prop draw "path") as [|n|s|path]; try done.
  destruct (length path <? 2)%nat; [done|]. apply box_put_context.
Qed.

(** X11: in either revision [drawPath] touches nothing but the canvas: the
    path buffer, the drawing flag, the colour, the width, the channel and
    the bounding box are as before, so a notification arriving during a
    capture does not change what will be submitted.  Without a drawing
    context, or on a body with no [path], it changes nothing at all. *)
Theorem X11_drawPath_frame (width_key : string) (draw : gmap string JsValue)
    (st : State) :
  currentPath (drawPath_with width_key draw st) = currentPath st
  ∧ isDrawing (drawPath_with width_key draw st) = isDrawing st
  ∧ color (drawPath_with width_key draw st) = color st
  ∧ lineWidth (drawPath_with width_key draw st) = lineWidth st
  ∧ channelRef (drawPath_with width_key draw st) = channelRef st
  ∧ realtime (drawPath_with width_key draw st) = realtime st
  ∧ box (drawPath_with width_key draw st) = box st
  ∧ (get_context st = None → drawPath_with width_key draw st = st)
  ∧ (prop draw "path" = JUndefined → drawPath_with width_key draw st = st).
Proof.
  rewrite (drawPath_frame width_key draw st) at 1 2 3 4 5 6.
  do 6 (split; [reflexivity|]).
  split; [apply drawPath_box|].
  split; [apply drawPath_no_context|apply drawPath_no_path].
Qed.

Lemma X11_drawPath_frame_witness :
  Whiteboard.drawPath {["color" := JStr "#ff0000"]}
    (Whiteboard.mount 0 0 initial)
  = Whiteboard.mount 0 0 initial
  ∧ WhiteboardSync.drawPath
      (stroke_row [mkPoint 0 0; mkPoint 30 40] "#ff0000" 12) initial
    = initial.
Proof.
  split.
  - destruct (X11_drawPath_frame "lineWidth" {["color" := JStr "#ff0000"]}
                (Whiteboard.mount 0 0 initial))
      as (_ & _ & _ & _ & _ & _ & _ & _ & Hnopath).
    apply Hnopath. vm_compute. reflexivity.
  - destruct (X11_drawPath_frame "linewidth"
                (stroke_row [mkPoint 0 0; mkPoint 30 40] "#ff0000" 12) initial)
      as (_ & _ & _ & _ & _ & _ & _ & Hnoctx & _).
    apply Hnoctx. reflexivity.
Defined.

(** ** Operations that meet on the one drawing context *)

Lemma in_view_put (c : Context2D) (st : State) (cv : Canvas) :
  canvas st = Some cv →
  in_view (put_context c st) = visible (width cv) (height cv) (ctx_marks c).
Proof.
  intros Hcv. unfold in_view, put_context. simpl. by rewrite Hcv.
Qed.

Lemma clearCanvasLocal_ctx (st : State) (cv : Canvas) (ctx : Context2D) :
  canvas st = Some cv → context2d cv = Some ctx →
  WhiteboardSync.clearCanvasLocal st =
  put_context
    (mkContext2D (ctx_pen ctx) (ctx_path ctx)
                 (ctx_marks ctx ++ [Erased 0 0 (width cv) (height cv)])
                 (ctx_calls ctx ++ [ClearRect 0 0 (width cv) (height cv)]))
    st.
Proof.
  intros Hcv Hctx. unfold WhiteboardSync.clearCanvasLocal.
  by rewrite Hcv, Hctx.
Qed.

(** X12: a received stroke and a capture share the one current path of the
    context.  [drawPath] begins a new path, so when a notification with a
    path [P] of 2 points or more is rendered during a capture, the next move
    extends [P], not the local stroke: it paints [P] followed by the new
    point, in the local colour and width.  The buffer is not affected: it
    gains the new point as usual. *)
Theorem X12_received_path_joins_capture (draw : gmap string JsValue)
    (P : list Point) (st : State) (ctx : Context2D) (e : NativeEvent)
    (c : Point) :
  isDrawing st = true → get_context st = Some ctx → (0 < lineWidth st)%Z →
  prop draw "path" = JPath P → (2 ≤ length P)%nat →
  Whiteboard.getCoordinates e st = Some c →
  currentPath (Whiteboard.handleMouseMove e (Whiteboard.drawPath draw st))
  = currentPath st ++ [c]
  ∧ ∃ ctx',
      get_context (Whiteboard.handleMouseMove e (Whiteboard.drawPath draw st))
      = Some ctx'
      ∧ ctx_path ctx' = [P ++ [c]]
      ∧ ctx_marks ctx' =
        ctx_marks ctx ++
        [Stroked (pen_for "lineWidth" draw (ctx_pen ctx)) [P];
         Stroked (local_pen st) [P ++ [c]]].
Proof.
  intros Hd (cv & Hcv & Hctx)%get_context_Some Hw Hpath Hlen Hc.
  unfold Whiteboard.drawPath.
  rewrite (drawPath_renders _ _ _ _ _ _ Hcv Hctx Hpath Hlen).
  match goal with |- context [set_canvas (Some (with_context ?C cv)) st] =>
    set (ctx1 := C) end.
  set (st1 := set_canvas (Some (with_context ctx1 cv)) st).
  assert (Hc1 : Whiteboard.getCoordinates e st1 = Some c).
  { rewrite <- Hc. apply getCoordinates_box. unfold box, st1. simpl.
    by rewrite Hcv. }
  assert (Hg1 : get_context st1 = Some ctx1) by reflexivity.
  rewrite (handleMouseMove_ctx e st1 c ctx1 Hd Hc1 Hg1).
  split; [reflexivity|].
  eexists. split; [by eapply get_context_put|].
  cbn [ctx_path ctx_marks]. unfold ctx1. cbn [ctx_path ctx_marks].
  change (lineWidth st1) with (lineWidth st).
  change (color st1) with (color st).
  apply Z.ltb_lt in Hw. rewrite Hw. simpl extend_last.
  split; [reflexivity|]. by rewrite <- app_assoc.
Qed.

Lemma X12_received_path_joins_capture_witness :
  currentPath
    (Whiteboard.handleMouseMove (MouseEvent 9 9)
       (Whiteboard.drawPath
          (stroke_row [mkPoint 0 0; mkPoint 30 40] "#ff0000" 12)
          (capture (MouseEvent 1 1) [MouseEvent 2 2]
             (Whiteboard.mount 0 0 initial))))
  = currentPath
      (capture (MouseEvent 1 1) [MouseEvent 2 2] (Whiteboard.mount 0 0 initial))
    ++ [mkPoint 9 9].
Proof.
  destruct (get_context
              (capture (MouseEvent 1 1) [MouseEvent 2 2]
                 (Whiteboard.mount 0 0 initial))) as [ctx|] eqn:Hctx;
    [|vm_compute in Hctx; discriminate].
  apply (X12_received_path_joins_capture
           (stroke_row [mkPoint 0 0; mkPoint 30 40] "#ff0000" 12)
           [mkPoint 0 0; mkPoint 30 40]
           (capture (MouseEvent 1 1) [MouseEvent 2 2]
              (Whiteboard.mount 0 0 initial))
           ctx (MouseEvent 9 9) (mkPoint 9 9)).
  - reflexivity.
  - exact Hctx.
  - reflexivity.
  - vm_compute. reflexivity.
  - simpl. lia.
  - reflexivity.
Defined.

(** X13: [clearRect] erases the bitmap and leaves the current path of the
    context alone.  So after a Clear in the middle of a capture the surface
    is blank, and the next move brings the whole stroke back: what is then
    in view is the buffered path with the new point, in the local colour and
    width. *)
Theorem X13_clear_during_capture (e0 : NativeEvent) (es : list NativeEvent)
    (st : State) (c0 : Point) (ctx : Context2D) (e : NativeEvent) (c : Point) :
  get_context st = Some ctx → (0 < lineWidth st)%Z →
  Whiteboard.getCoordinates e0 st = Some c0 →
  Whiteboard.getCoordinates e st = Some c →
  blank_state (fst (Whiteboard.clearCanvas (capture e0 es st)))
  ∧ currentPath (fst (Whiteboard.clearCanvas (capture e0 es st)))
    = currentPath (capture e0 es st)
  ∧ in_view
      (Whiteboard.handleMouseMove e
         (fst (Whiteboard.clearCanvas (capture e0 es st))))
    = [(local_pen st, [currentPath (capture e0 es st) ++ [c]])].
Proof.
  intros Hctx Hw H0 Hc.
  destruct (capture_paints e0 es st c0 ctx Hctx Hw H0) as (ctx' & Hg & Hp & _).
  destruct (capture_fields e0 es st c0 H0) as (_ & Hd & Hbox & Hcol & Hlw).
  rewrite component_clearCanvas_local. cbn [fst].
  split; [apply clearCanvasLocal_blank|].
  pose proof Hg as (cv & Hcv & Hcx)%get_context_Some.
  rewrite (clearCanvasLocal_ctx _ _ _ Hcv Hcx).
  split; [reflexivity|].
  set (ctx1 := mkContext2D _ _ _ _).
  set (st1 := put_context ctx1 (capture e0 es st)).
  assert (Hc1 : Whiteboard.getCoordinates e st1 = Some c).
  { rewrite <- Hc. apply getCoordinates_box. unfold st1.
    by rewrite box_put_context. }
  assert (Hg1 : get_context st1 = Some ctx1) by (by eapply get_context_put).
  rewrite (handleMouseMove_ctx e st1 c ctx1 Hd Hc1 Hg1).
  assert (Hcv1 : canvas (set_currentPath (currentPath st1 ++ [c]) st1)
                 = Some (with_context ctx1 cv)).
  { unfold st1, put_context. simpl. by rewrite Hcv. }
  rewrite (in_view_put _ _ _ Hcv1).
  cbn [ctx_marks width height with_context]. unfold ctx1.
  cbn [ctx_marks ctx_path ctx_pen].
  rewrite visible_snoc, visible_cleared. simpl see.
  change (color st1) with (color (capture e0 es st)).
  change (lineWidth st1) with (lineWidth (capture e0 es st)).
  rewrite Hcol, Hlw, Hp. apply Z.ltb_lt in Hw. rewrite Hw.
  reflexivity.
Qed.

Lemma X13_clear_during_capture_witness :
  in_view
    (Whiteboard.handleMouseMove (MouseEvent 3 5)
       (fst (Whiteboard.clearCanvas
               (capture (MouseEvent 1 1) [MouseEvent 2 2]
                  (Whiteboard.mount 0 0 initial)))))
  = [(local_pen (Whiteboard.mount 0 0 initial),
      [currentPath
         (capture (MouseEvent 1 1) [MouseEvent 2 2]
            (Whiteboard.mount 0 0 initial))
       ++ [mkPoint 3 5]])].
Proof.
  apply (X13_clear_during_capture (MouseEvent 1 1) [MouseEvent 2 2]
           (Whiteboard.mount 0 0 initial) (mkPoint 1 1) fresh_context
           (MouseEvent 3 5) (mkPoint 3 5));
    reflexivity.
Defined.

(** ** The Clear control and the channel, further *)

(** X14: the revised [clearCanvas] does to the local state exactly what the
    one of [src/components/Whiteboard.tsx] does, and sends the broadcast if
    and only if the channel reference is set (it is null before the mount
    effect has run and after its cleanup).  Neither touches the buffer, the
    drawing flag, the colour or the width, and with no canvas both leave the
    state as it is. *)
Theorem X14_clearCanvas_revisions (st : State) :
  fst (WhiteboardSync.clearCanvas st) = fst (Whiteboard.clearCanvas st)
  ∧ snd (Whiteboard.clearCanvas st) = []
  ∧ (channelRef st = None → snd (WhiteboardSync.clearCanvas st) = [])
  ∧ (∀ ch, channelRef st = Some ch →
       snd (WhiteboardSync.clearCanvas st)
       = [Send (topic ch) "broadcast" "clear"])
  ∧ currentPath (fst (Whiteboard.clearCanvas st)) = currentPath st
  ∧ isDrawing (fst (Whiteboard.clearCanvas st)) = isDrawing st
  ∧ color (fst (Whiteboard.clearCanvas st)) = color st
  ∧ lineWidth (fst (Whiteboard.clearCanvas st)) = lineWidth st
  ∧ (canvas st = None → fst (Whiteboard.clearCanvas st) = st).
Proof.
  rewrite component_clearCanvas_local.
  unfold WhiteboardSync.clearCanvas. cbn [fst snd].
  rewrite clearCanvasLocal_channelRef.
  split; [done|]. split; [done|].
  split; [by intros ->|]. split; [by intros ch ->|].
  unfold WhiteboardSync.clearCanvasLocal.
  destruct (canvas st) as [cv|]; [|done].
  destruct (context2d cv); done.
Qed.

Lemma X14_clearCanvas_revisions_witness :
  snd (WhiteboardSync.clearCanvas (WhiteboardSync.unmount painted_sync_client))
  = []
  ∧ snd (WhiteboardSync.clearCanvas painted_sync_client)
    = [Send "whiteboard-drawings" "broadcast" "clear"].
Proof.
  split.
  - destruct (X14_clearCanvas_revisions
                (WhiteboardSync.unmount painted_sync_client))
      as (_ & _ & Hnone & _).
    apply Hnone. reflexivity.
  - destruct (X14_clearCanvas_revisions painted_sync_client)
      as (_ & _ & _ & Hsome & _).
    apply (Hsome WhiteboardSync.channel). reflexivity.
Defined.



Lemma in_view_ctx (st : State) (ctx : Context2D) (l t w h : Z) :
  get_context st = Some ctx → box st = Some (l, t, w, h) →
  in_view st = visible w h (ctx_marks ctx).
Proof.
  unfold get_context, box, in_view.
  destruct (canvas st) as [cv|]; simpl; [|done].
  intros -> [= _ _ <- <-]. reflexivity.
Qed.

Lemma box_is_Some (st : State) (ctx : Context2D) :
  get_context st = Some ctx → ∃ l t w h, box st = Some (l, t, w, h).
Proof.
  intros (cv & Hcv & _)%get_context_Some. unfold box. rewrite Hcv.
  by eexists _, _, _, _.
Qed.

Lemma visible_marks (w h : Z) (ms : list Mark) (rs : list Submitted) :
  visible w h (ms ++ (mark_of <$> rs))
  = visible w h ms
    ++ ((λ r, (mkPen (sub_color r) (sub_width r) CapRound JoinRound,
               [sub_path r])) <$> rs).
Proof.
  induction rs as [|r rs IH] using rev_ind.
  - by rewrite !app_nil_r.
  - rewrite (fmap_app mark_of).
    change (mark_of <$> [r]) with [mark_of r].
    rewrite app_assoc, visible_snoc, IH, fmap_app, app_assoc.
    reflexivity.
Qed.

Lemma sync_replay (rows : list Submitted) (st : State) (ctx : Context2D) :
  get_context st = Some ctx → Forall well_formed rows →
  ∃ ctx',
    get_context
      (fold_left (λ s r, WhiteboardSync.drawPath (row_of r) s) rows st)
    = Some ctx'
    ∧ ctx_marks ctx' = ctx_marks ctx ++ (mark_of <$> rows)
    ∧ box (fold_left (λ s r, WhiteboardSync.drawPath (row_of r) s) rows st)
      = box st.
Proof.
  revert st ctx. induction rows as [|r rows IH]; intros st ctx Hctx Hwf.
  - exists ctx. by rewrite app_nil_r.
  - apply Forall_cons in Hwf as [[Hlen Hw] Hwf]. simpl fold_left.
    destruct (sync_drawPath_row st ctx (sub_path r) (sub_color r) (sub_width r)
                Hctx Hlen Hw) as (ctx1 & Hg1 & Hm1).
    destruct (IH _ ctx1 Hg1 Hwf) as (ctx' & Hg & Hm & Hb).
    exists ctx'. split; [exact Hg|]. split.
    + rewrite Hm, Hm1, <- app_assoc. reflexivity.
    + etransitivity; [exact Hb|apply drawPath_box].
Qed.

(** X16: in the revised component, insert notifications rendered one after
    the other add their strokes to what is in view, in delivery order, each
    as its one polyline in its submitted colour and width (rows of 2 points
    or more and positive width, on a client with a drawing context). *)
Theorem X16_replay_in_delivery_order (rows : list Submitted) (st : State)
    (ctx : Context2D) :
  get_context st = Some ctx → Forall well_formed rows →
  in_view (fold_left (λ s r, WhiteboardSync.drawPath (row_of r) s) rows st)
  = in_view st
    ++ ((λ r, (mkPen (sub_color r) (sub_width r) CapRound JoinRound,
               [sub_path r])) <$> rows).
Proof.
  intros Hctx Hwf.
  destruct (sync_replay rows st ctx Hctx Hwf) as (ctx' & Hg & Hm & Hb).
  destruct (box_is_Some st ctx Hctx) as (l & t & w & h & Hbox).
  rewrite (in_view_ctx _ ctx' l t w h Hg) by (by rewrite Hb).
  rewrite (in_view_ctx st ctx l t w h Hctx Hbox), Hm.
  apply visible_marks.
Qed.

Lemma X16_replay_in_delivery_order_witness :
  in_view
    (fold_left (λ s r, WhiteboardSync.drawPath (row_of r) s)
       [mkSubmitted [mkPoint 0 0; mkPoint 30 40] "#ff0000" 12;
        mkSubmitted [mkPoint 5 5; mkPoint 6 6; mkPoint 7 5] "#00ff00" 3]
       painted_sync_client)
  = in_view painted_sync_client
    ++ [(mkPen "#ff0000" 12 CapRound JoinRound, [[mkPoint 0 0; mkPoint 30 40]]);
        (mkPen "#00ff00" 3 CapRound JoinRound,
         [[mkPoint 5 5; mkPoint 6 6; mkPoint 7 5]])].
Proof.
  destruct (get_context painted_sync_client) as [ctx|] eqn:Hctx;
    [|vm_compute in Hctx; discriminate].
  apply (X16_replay_in_delivery_order
           [mkSubmitted [mkPoint 0 0; mkPoint 30 40] "#ff0000" 12;
            mkSubmitted [mkPoint 5 5; mkPoint 6 6; mkPoint 7 5] "#00ff00" 3]
           painted_sync_client ctx Hctx).
  repeat constructor; simpl; lia.
Defined.

(** X17: a clear and an insert notification do not commute.  On a client of
    the revised component with a drawing context, a row rendered after the
    surface was wiped is the one stroke in view; the same row rendered
    before the wipe is gone. *)
Theorem X17_clear_and_insert_order (r : Submitted) (st : State)
    (ctx : Context2D) :
  get_context st = Some ctx → well_formed r →
  in_view (WhiteboardSync.drawPath (row_of r)
             (WhiteboardSync.clearCanvasLocal st))
  = [(mkPen (sub_color r) (sub_width r) CapRound JoinRound, [sub_path r])]
  ∧ in_view (WhiteboardSync.clearCanvasLocal
               (WhiteboardSync.drawPath (row_of r) st))
    = [].
Proof.
  intros Hctx Hwf. split; [|apply clearCanvasLocal_blank].
  pose proof Hctx as (cv & Hcv & Hcx)%get_context_Some.
  pose proof (clearCanvasLocal_blank st) as Hblank.
  rewrite (clearCanvasLocal_ctx _ _ _ Hcv Hcx) in *.
  set (ctx1 := mkContext2D _ _ _ _) in *.
  assert (Hg1 : get_context (put_context ctx1 st) = Some ctx1)
    by (by eapply get_context_put).
  change (WhiteboardSync.drawPath (row_of r) (put_context ctx1 st))
    with (fold_left (λ s r, WhiteboardSync.drawPath (row_of r) s) [r]
            (put_context ctx1 st)).
  destruct (sync_replay [r] _ ctx1 Hg1) as (ctx' & Hg & Hm & Hb);
    [by constructor|].
  destruct (box_is_Some _ ctx1 Hg1) as (l & t & w & h & Hbox).
  rewrite (in_view_ctx _ ctx' l t w h Hg) by (by rewrite Hb).
  rewrite Hm, visible_marks.
  unfold blank_state in Hblank.
  rewrite (in_view_ctx _ ctx1 l t w h Hg1 Hbox) in Hblank.
  by rewrite Hblank.
Qed.

Lemma X17_clear_and_insert_order_witness :
  in_view
    (WhiteboardSync.drawPath
       (row_of (mkSubmitted [mkPoint 0 0; mkPoint 30 40] "#ff0000" 12))
       (WhiteboardSync.clearCanvasLocal painted_sync_client))
  = [(mkPen "#ff0000" 12 CapRound JoinRound, [[mkPoint 0 0; mkPoint 30 40]])].
Proof.
  destruct (get_context painted_sync_client) as [ctx|] eqn:Hctx;
    [|vm_compute in Hctx; discriminate].
  apply (X17_clear_and_insert_order
           (mkSubmitted [mkPoint 0 0; mkPoint 30 40] "#ff0000" 12)
           painted_sync_client ctx Hctx).
  split; simpl; lia.
Defined.
